(** * possession_index: entities, spatial queries and the motion mask

    A shallow embedding of [game/player.py], [soccer/player.py] and
    [run_utils.py].

    - Coordinates are the float64 scalars of the numpy arrays held by a
      norfair [Detection]; they are modelled by the kernel's binary64
      floats, so every definition below evaluates.
    - A [Detection] built from a bounding box carries a 2x2 array
      [[x1, y1], [x2, y2]]: [points[0]] and [points[1]] are its two rows.
    - [detection.data] is a Python dict with string keys: a [gmap string].
    - A Python call either returns a value or raises: [result].  Python's
      [None] is [None] of an [option], or [VNone] among attribute values. *)

From Stdlib Require Import ZArith List Bool.
From Stdlib Require Import Floats.
From stdpp Require Import base option list strings gmap.

Local Open Scope Z_scope.

(** ** Calls that may raise *)

Inductive exn : Type :=
  | AttributeError
  | KeyError
  | TypeError.

Inductive result (A : Type) : Type :=
  | Ok (a : A)
  | Raise (e : exn).

Arguments Ok {A} a.
Arguments Raise {A} e.

Definition bind {A B : Type} (r : result A) (k : A -> result B) : result B :=
  match r with
  | Ok a => k a
  | Raise e => Raise e
  end.

Notation "'let*' x ':=' r 'in' k" := (bind r (fun x => k))
  (at level 10, x pattern, r at level 100, k at level 200).

(** [o.attr] where [o] may be [None]: reading an attribute of [None]
    raises [AttributeError]. *)
Definition getattr_of {A : Type} (o : option A) : result A :=
  match o with
  | Some a => Ok a
  | None => Raise AttributeError
  end.

(** A call returns (a value, possibly [None]) instead of raising. *)
Definition returns {A : Type} (r : result A) : Prop :=
  exists a, r = Ok a.

(** ** numpy scalars and length-2 vectors *)

Definition point : Type := (float * float).

(** [a - b] on two arrays of shape (2,). *)
Definition vsub (a b : point) : point :=
  (PrimFloat.sub (fst a) (fst b), PrimFloat.sub (snd a) (snd b)).

(** [np.linalg.norm(v)] for a real vector: [sqrt(dot(v, v))]. *)
Definition norm (v : point) : float :=
  PrimFloat.sqrt (PrimFloat.add (PrimFloat.mul (fst v) (fst v))
                                (PrimFloat.mul (snd v) (snd v))).

(** Python's builtins [min(a, b)] and [max(a, b)]: the first argument is
    kept unless the second is strictly smaller (resp. larger). *)
Definition py_min (a b : float) : float :=
  if PrimFloat.ltb b a then b else a.

Definition py_max (a b : float) : float :=
  if PrimFloat.ltb a b then b else a.

(** [a <= b or b <= a]: the two floats are ordered, which fails only when
    one of them is NaN. *)
Definition comparable (a b : float) : bool :=
  PrimFloat.leb a b || PrimFloat.leb b a.

(** ** Teams, attribute values and detections *)

(** Modelled from the spec: [Team] of [game/team.py], which is not among
    the sources: "display color, name", immutable once constructed. *)
Record Team : Type := mkTeam {
  team_name : string;
  team_color : Z * Z * Z
}.

(** The values stored in [detection.data]. *)
Inductive pyval : Type :=
  | VNone
  | VInt (z : Z)
  | VStr (s : string)
  | VTeam (t : Team).

#[global] Instance Team_eq_dec : EqDecision Team.
Proof. solve_decision. Defined.

#[global] Instance pyval_eq_dec : EqDecision pyval.
Proof. solve_decision. Defined.

(** [a == b] on attribute values. *)
Definition py_eqb (a b : pyval) : bool := bool_decide (a = b).

(** Modelled from the spec: [Team.from_name] of [game/team.py], which is not
    among the sources: the team of the roster whose name matches exactly,
    [None] when there is none. *)
Definition from_name (teams : list Team) (name : pyval) : pyval :=
  match name with
  | VStr s =>
      match List.find (fun t => String.eqb (team_name t) s) teams with
      | Some t => VTeam t
      | None => VNone
      end
  | _ => VNone
  end.

Definition bbox : Type := (point * point).

Module Detection.

Record t : Type := mk {
  points : bbox;
  absolute_points : bbox;
  data : gmap string pyval
}.

(** [detection.data[key] = v], the in-place update of the dict. *)
Definition set_data (key : string) (v : pyval) (d : t) : t :=
  mk (points d) (absolute_points d) (<[key := v]> (data d)).

(** [detection.center]: a norfair [Detection] has [points],
    [absolute_points] and [data] among its attributes and no [center];
    reading it raises [AttributeError]. *)
Definition center (d : t) : result (option point) :=
  Raise AttributeError.

End Detection.

(** [d[key]] on a dict. *)
Definition getitem (d : gmap string pyval) (key : string) : result pyval :=
  match d !! key with
  | Some v => Ok v
  | None => Raise KeyError
  end.

(** [key in d]. *)
Definition contains (d : gmap string pyval) (key : string) : bool :=
  bool_decide (is_Some (d !! key)).

(** ** The ball, as [Player] reads it *)

Module Ball.

(** Modelled from the spec: [Ball] of [game/ball.py], which is not among
    the sources: it owns the Detection of this frame (the one
    [run_utils.get_main_ball] assigns) and retains the previous non-null
    one, the "last detection"; its center is null when it has no
    geometry.  Listed are the attributes a player reads. *)
Record t : Type := mk {
  detection : option Detection.t;
  last_detection : option Detection.t;
  center : option point;
  center_abs : option point
}.

End Ball.

(** [a - b] where [a] may be [None]: [None - array] raises [TypeError]. *)
Definition sub_from (a : option point) (b : point) : result point :=
  match a with
  | Some a => Ok (vsub a b)
  | None => Raise TypeError
  end.

(** [a <= b] where [b] may be [None]: comparing a float with [None] raises
    [TypeError]. *)
Definition le_opt (a : float) (b : option float) : result bool :=
  match b with
  | Some b => Ok (PrimFloat.leb a b)
  | None => Raise TypeError
  end.

(** ** [game/player.py] *)

Module Game.

Record Player : Type := mkPlayer {
  txy : option point;
  be_xy : option point;
  detection : option Detection.t;
  in_possession : bool;
  team : pyval
}.

Definition __init__ (detection : option Detection.t) : Player :=
  let team :=
    match detection with
    | Some d =>
        match Detection.data d !! "team" with
        | Some t => t
        | None => VNone
        end
    | None => VNone
    end in
  mkPlayer None None detection false team.

Definition get_left_foot (points : bbox) : point :=
  let '(x1, y1) := fst points in
  let '(x2, y2) := snd points in
  (x1, y2).

Definition get_right_foot (points : bbox) : point :=
  snd points.

(** The argument [points] is overwritten by [self.detection.points] on the
    first line of the method. *)
Definition get_center (self : Player) (points : bbox) : result point :=
  let* d := getattr_of (detection self) in
  let points := Detection.points d in
  let '(x1, y1) := fst points in
  let '(x2, y2) := snd points in
  let center_x := ((x1 + x2) / 2)%float in
  let center_y := ((y1 + y2) / 2)%float in
  Ok (center_x, center_y).

Definition get_xy (self : Player) : result point :=
  let* d := getattr_of (detection self) in
  let points := Detection.points d in
  let '(x1, y1) := fst points in
  let '(x2, y2) := snd points in
  let x := ((x1 + x2) / 2)%float in
  let y := py_min y1 y2 in
  Ok (x, y).

Definition xy (self : Player) : result point := get_xy self.

Definition left_foot (self : Player) : result point :=
  let* d := getattr_of (detection self) in
  Ok (get_left_foot (Detection.points d)).

Definition right_foot (self : Player) : result point :=
  let* d := getattr_of (detection self) in
  Ok (get_right_foot (Detection.points d)).

Definition center (self : Player) : result point :=
  let* d := getattr_of (detection self) in
  get_center self (Detection.points d).

Definition left_foot_abs (self : Player) : result point :=
  let* d := getattr_of (detection self) in
  Ok (get_left_foot (Detection.absolute_points d)).

Definition right_foot_abs (self : Player) : result point :=
  let* d := getattr_of (detection self) in
  Ok (get_right_foot (Detection.absolute_points d)).

Definition center_abs (self : Player) : result point :=
  let* d := getattr_of (detection self) in
  get_center self (Detection.absolute_points d).

(** [np.array([self.left_foot, self.right_foot])] *)
Definition feet (self : Player) : result (point * point) :=
  let* l := left_foot self in
  let* r := right_foot self in
  Ok (l, r).

Definition distance_to_ball (self : Player) (ball : Ball.t) : result (option float) :=
  match detection self, Ball.center ball with
  | None, _ | _, None => Ok None
  | Some _, Some ball_center =>
      let* c := center self in
      let center_distance := norm (vsub ball_center c) in
      Ok (Some center_distance)
  end.

Definition distance_to_last_ball (self : Player) (ball : Ball.t) : result (option float) :=
  match detection self with
  | None => Ok None
  | Some _ =>
      match Ball.center ball with
      | None =>
          match Ball.last_detection ball with
          | Some last =>
              let* last_center := Detection.center last in
              match last_center with
              | Some last_center =>
                  let* c := center self in
                  let center_distance := norm (vsub last_center c) in
                  Ok (Some center_distance)
              | None => Ok None
              end
          | None => Ok None
          end
      | Some _ =>
          let* det := getattr_of (Ball.detection ball) in
          let* det_center := Detection.center det in
          let* c := center self in
          let* diff := sub_from det_center c in
          let center_distance := norm diff in
          Ok (Some center_distance)
      end
  end.

Definition closest_foot_to_ball (self : Player) (ball : Ball.t) : result (option point) :=
  match detection self, Ball.center ball with
  | None, _ | _, None => Ok None
  | Some _, Some ball_center =>
      let* l := left_foot self in
      let left_foot_distance := norm (vsub ball_center l) in
      let* r := right_foot self in
      let right_foot_distance := norm (vsub ball_center r) in
      if (left_foot_distance <? right_foot_distance)%float
      then let* l := left_foot self in Ok (Some l)
      else let* r := right_foot self in Ok (Some r)
  end.

Definition closest_center_to_ball_abs (self : Player) (ball : Ball.t) : result (option point) :=
  match detection self, Ball.center_abs ball with
  | None, _ | _, None => Ok None
  | Some _, Some ball_center_abs =>
      let* ca := center_abs self in
      let center_distance := norm (vsub ball_center_abs ca) in
      let* d := distance_to_ball self ball in
      let* keep := le_opt center_distance d in
      if keep then let* c := center self in Ok (Some c) else Ok None
  end.

Definition closest_foot_to_ball_abs (self : Player) (ball : Ball.t) : result (option point) :=
  match detection self, Ball.center_abs ball with
  | None, _ | _, None => Ok None
  | Some _, Some ball_center_abs =>
      let* l := left_foot_abs self in
      let left_foot_distance := norm (vsub ball_center_abs l) in
      let* r := right_foot_abs self in
      let right_foot_distance := norm (vsub ball_center_abs r) in
      if (left_foot_distance <? right_foot_distance)%float
      then let* l := left_foot_abs self in Ok (Some l)
      else let* r := right_foot_abs self in Ok (Some r)
  end.

(** A Python object handed to [__eq__]: a [Player], or anything else. *)
Inductive pyobj : Type :=
  | OPlayer (p : Player)
  | OOther (v : pyval).

Definition isinstance_Player (o : pyobj) : bool :=
  match o with
  | OPlayer _ => true
  | OOther _ => false
  end.

(** [o.detection]: only a [Player] has the attribute. *)
Definition detection_attr (o : pyobj) : result (option Detection.t) :=
  match o with
  | OPlayer p => Ok (detection p)
  | OOther _ => Raise AttributeError
  end.

Definition __eq__ (self other : pyobj) : result bool :=
  if Bool.eqb (isinstance_Player self) false
     || Bool.eqb (isinstance_Player other) false
  then Ok false
  else
    let* sdet := detection_attr self in
    let* sd := getattr_of sdet in
    let* self_id := getitem (Detection.data sd) "id" in
    let* odet := detection_attr other in
    let* od := getattr_of odet in
    let* other_id := getitem (Detection.data od) "id" in
    Ok (py_eqb self_id other_id).

(** [player1] and [player2] may be [None]; a [Player] object is truthy (the
    class defines neither [__bool__] nor [__len__]). *)
Definition have_same_id (player1 player2 : option Player) : result bool :=
  match player1, player2 with
  | Some p1, Some p2 =>
      let* d1 := getattr_of (detection p1) in
      if negb (contains (Detection.data d1) "id") then Ok false else
      let* d2 := getattr_of (detection p2) in
      if negb (contains (Detection.data d2) "id") then Ok false else
      __eq__ (OPlayer p1) (OPlayer p2)
  | _, _ => Ok false
  end.

(** The body of the loop of [from_detections]: the dict of the detection
    is updated in place, so the detection the player wraps is the updated
    one. *)
Definition classify (teams : list Team) (detection : Detection.t) : Detection.t :=
  match Detection.data detection !! "classification" with
  | Some team_name =>
      let team := from_name teams team_name in
      Detection.set_data "team" team detection
  | None => detection
  end.

Fixpoint from_detections_loop (teams : list Team)
    (detections : list (option Detection.t)) (players : list Player) : list Player :=
  match detections with
  | [] => players
  | None :: rest => from_detections_loop teams rest players
  | Some detection :: rest =>
      let detection := classify teams detection in
      let player := __init__ (Some detection) in
      from_detections_loop teams rest (players ++ [player])
  end.

Definition from_detections (detections : list (option Detection.t))
    (teams : list Team) : list Player :=
  from_detections_loop teams detections [].

End Game.

(** ** [soccer/player.py]

    [soccer.ball.Ball] is read through its [center] attribute only. *)

Module Soccer.

Record Player : Type := mkPlayer {
  detection : option Detection.t;
  team : pyval
}.

Definition __init__ (detection : option Detection.t) : Player :=
  let team :=
    match detection with
    | Some d =>
        match Detection.data d !! "team" with
        | Some t => t
        | None => VNone
        end
    | None => VNone
    end in
  mkPlayer detection team.

Definition left_foot (self : Player) : result point :=
  let* d := getattr_of (detection self) in
  let points := Detection.points d in
  let '(x1, y1) := fst points in
  let '(x2, y2) := snd points in
  Ok (x1, y2).

Definition right_foot (self : Player) : result point :=
  let* d := getattr_of (detection self) in
  Ok (snd (Detection.points d)).

Definition feet (self : Player) : result (point * point) :=
  let* l := left_foot self in
  let* r := right_foot self in
  Ok (l, r).

Definition distance_to_ball (self : Player) (ball : Ball.t) : result (option float) :=
  match detection self, Ball.center ball with
  | None, _ | _, None => Ok None
  | Some _, Some ball_center =>
      let* l := left_foot self in
      let left_foot_distance := norm (vsub ball_center l) in
      let* r := right_foot self in
      let right_foot_distance := norm (vsub ball_center r) in
      Ok (Some (py_min left_foot_distance right_foot_distance))
  end.

Definition closest_foot_to_ball (self : Player) (ball : Ball.t) : result (option point) :=
  match detection self, Ball.center ball with
  | None, _ | _, None => Ok None
  | Some _, Some ball_center =>
      let* l := left_foot self in
      let left_foot_distance := norm (vsub ball_center l) in
      let* r := right_foot self in
      let right_foot_distance := norm (vsub ball_center r) in
      if (left_foot_distance <? right_foot_distance)%float
      then let* l := left_foot self in Ok (Some l)
      else let* r := right_foot self in Ok (Some r)
  end.

Definition classify (teams : list Team) (detection : Detection.t) : Detection.t :=
  match Detection.data detection !! "classification" with
  | Some team_name =>
      let team := from_name teams team_name in
      Detection.set_data "team" team detection
  | None => detection
  end.

Fixpoint from_detections_loop (teams : list Team)
    (detections : list (option Detection.t)) (players : list Player) : list Player :=
  match detections with
  | [] => players
  | None :: rest => from_detections_loop teams rest players
  | Some detection :: rest =>
      let detection := classify teams detection in
      let player := __init__ (Some detection) in
      from_detections_loop teams rest (players ++ [player])
  end.

Definition from_detections (detections : list (option Detection.t))
    (teams : list Team) : list Player :=
  from_detections_loop teams detections [].

End Soccer.

(** ** [run_utils.py] *)

Module RunUtils.

(** A frame is read through [frame.shape[:2]] only; a mask is a 2-D array,
    a list of rows. *)
Record Frame : Type := mkFrame {
  height : nat;
  width : nat
}.

Abbreviation Mask := (list (list Z)) (only parsing).

(** [np.ones(frame.shape[:2], dtype=frame.dtype)] *)
Definition ones (frame : Frame) : Mask :=
  replicate (height frame) (replicate (width frame) 1).

(** Index [i] of an axis belongs to the slice [start:stop] (step 1, bounds
    not negative) when [start <= i < stop]; bounds past the end of the axis
    are clipped. *)
Definition in_slice (start stop i : nat) : bool :=
  (start <=? i)%nat && (i <? stop)%nat.

(** [mask[r0:r1, c0:c1] = v] *)
Definition assign_slice (r0 r1 c0 c1 : nat) (v : Z) (mask : Mask) : Mask :=
  imap (fun i row =>
          if in_slice r0 r1 i
          then imap (fun j x => if in_slice c0 c1 j then v else x) row
          else row) mask.

Section CreateMask.

(** [BaseDetection.generate_predictions_mask] applied to
    [Converter.Detections_to_DataFrame(detections)]; both live in the
    [inference] package. *)
Variable generate_predictions_mask : list Detection.t -> Frame -> Z -> Mask.

Definition create_mask (frame : Frame) (detections : list Detection.t) : Mask :=
  let mask :=
    match detections with
    | [] => ones frame
    | _ => generate_predictions_mask detections frame 40
    end in
  (* remove goal counter *)
  let mask := assign_slice 363 118 856 64 0 mask in
  (* remove broadcaster logo *)
  let mask := assign_slice 1589 143 1805 95 0 mask in
  mask.

End CreateMask.

(** [mask[i, j]] *)
Definition pixel (mask : Mask) (i j : nat) : option Z :=
  row ← mask !! i; row !! j.

(** An image is a 3-D array: rows of pixels, a pixel being the list of its
    channels. *)
Abbreviation Image := (list (list (list Z))) (only parsing).

(** [img.shape[:2] == (frame height, frame width)] *)
Definition image_of (frame : Frame) (img : Image) : Prop :=
  length img = height frame /\
  Forall (fun row => length row = width frame) img.

(** [mask.shape == (frame height, frame width)] *)
Definition mask_of (frame : Frame) (mask : Mask) : Prop :=
  length mask = height frame /\
  Forall (fun row => length row = width frame) mask.

(** What [apply_mask] gives: the masked copy, or the [IndexError] numpy
    raises when the boolean index [mask == 0] does not have the shape of
    the first two axes of [img]. *)
Inductive masked : Type :=
  | Masked (masked_img : list (list (list Z)))
  | IndexError.

(** The first two axes of [img] against the shape of [mask], row by row. *)
Fixpoint same_shape (img : Image) (mask : Mask) : bool :=
  match img, mask with
  | [], [] => true
  | row :: img, mrow :: mask =>
      (length row =? length mrow)%nat && same_shape img mask
  | _, _ => false
  end.

(** [pixel[...] = 0]: every channel of the pixel is set to 0. *)
Definition zero_pixel (px : list Z) : list Z :=
  (fun _ => 0) <$> px.

(** [masked_img = img.copy(); masked_img[mask == 0] = 0] *)
Definition apply_mask (img : Image) (mask : Mask) : masked :=
  if same_shape img mask
  then Masked (zip_with
                 (zip_with (fun px m => if m =? 0 then zero_pixel px else px))
                 img mask)
  else IndexError.

(** [img[i, j]] *)
Definition image_pixel (img : Image) (i j : nat) : option (list Z) :=
  row ← img !! i; row !! j.

Section UpdateMotionEstimator.

Variable generate_predictions_mask : list Detection.t -> Frame -> Z -> Mask.

(** norfair's [MotionEstimator] keeps state between frames: [update] takes
    the estimator and gives the transformation with the estimator after
    the update. *)
Variables MotionEstimator CoordinatesTransformation : Type.
Variable update :
  MotionEstimator -> Frame -> Mask -> CoordinatesTransformation * MotionEstimator.

Definition update_motion_estimator (motion_estimator : MotionEstimator)
    (detections : list Detection.t) (frame : Frame)
    : CoordinatesTransformation * MotionEstimator :=
  let mask := create_mask generate_predictions_mask frame detections in
  let coord_transformations := update motion_estimator frame mask in
  coord_transformations.

End UpdateMotionEstimator.

End RunUtils.

(** ** The specification's geometry, in its own words *)

(** "left_foot(points) = (x1, max(y1,y2))" *)
Definition spec_left_foot (points : bbox) : point :=
  let '(x1, y1) := fst points in
  let '(x2, y2) := snd points in
  (x1, py_max y1 y2).

(** "center(points) = midpoint of the two corners" *)
Definition spec_center (points : bbox) : point :=
  let '(x1, y1) := fst points in
  let '(x2, y2) := snd points in
  (((x1 + x2) / 2)%float, ((y1 + y2) / 2)%float).

(** "euclidean_distance(p, q) = sqrt(sum (p_i - q_i)^2)" *)
Definition euclidean_distance (p q : point) : float :=
  norm (vsub p q).

(** "Skip null detections": the detections of a batch that are not null,
    in the order of the batch, repeats included. *)
Definition survivors (detections : list (option Detection.t)) : list Detection.t :=
  omap id detections.

(** ** Sample objects

    A detection of a box seen by a still camera (its absolute points are
    its points), with the given attribute dict; a ball detected at a point
    in this frame, and a ball that only retains a last detection. *)

Definition detection_of (points : bbox) (data : gmap string pyval) : Detection.t :=
  Detection.mk points points data.

Definition ball_at (c : point) : Ball.t :=
  Ball.mk (Some (detection_of (c, c) ∅)) None (Some c) (Some c).

Definition ball_last_seen (last : Detection.t) : Ball.t :=
  Ball.mk None (Some last) None None.

(** ** Order facts on binary64 *)

Lemma SFcompare_antisym (x y : spec_float) :
  SFcompare y x = option_map CompOpp (SFcompare x y).
Proof.
  destruct x as [sx|sx| |sx mx ex], y as [sy|sy| |sy my ey]; simpl;
    try reflexivity;
    try (destruct sx; reflexivity);
    try (destruct sy; reflexivity);
    try (destruct sx, sy; reflexivity).
  rewrite (Z.compare_antisym ex ey), !Pos.compare_cont_spec.
  rewrite (Pos.compare_antisym mx my).
  destruct sx, sy, (ex ?= ey)%Z, (mx ?= my)%positive; reflexivity.
Qed.

Lemma SFcompare_refl (x y : spec_float) (c : comparison) :
  SFcompare x y = Some c -> SFcompare y y = Some Eq.
Proof.
  destruct x as [sx|sx| |sx mx ex], y as [sy|sy| |sy my ey]; simpl;
    try discriminate; intros _; try reflexivity;
    try (destruct sy; reflexivity).
  all: rewrite Z.compare_refl, Pos.compare_cont_spec, Pos.compare_refl;
    destruct sy; reflexivity.
Qed.

Lemma float_ltb_not_leb (a b : float) :
  (b <? a)%float = true -> (a <=? b)%float = false.
Proof.
  rewrite FloatAxioms.ltb_spec, FloatAxioms.leb_spec. unfold SFltb, SFleb.
  rewrite (SFcompare_antisym (Prim2SF b) (Prim2SF a)).
  destruct (SFcompare (Prim2SF b) (Prim2SF a)) as [[]|]; simpl; congruence.
Qed.

Lemma float_eqb_not_ltb (a b : float) :
  (a =? b)%float = true -> (a <? b)%float = false.
Proof.
  rewrite FloatAxioms.eqb_spec, FloatAxioms.ltb_spec. unfold SFeqb, SFltb.
  destruct (SFcompare (Prim2SF a) (Prim2SF b)) as [[]|]; congruence.
Qed.

Lemma float_leb_py_max (a b : float) :
  (a <=? b)%float = true -> (b =? py_max a b)%float = true.
Proof.
  unfold py_max. rewrite FloatAxioms.leb_spec, FloatAxioms.ltb_spec.
  unfold SFleb, SFltb.
  destruct (SFcompare (Prim2SF a) (Prim2SF b)) as [c|] eqn:E; [|discriminate].
  pose proof (SFcompare_refl _ _ _ E) as Hbb.
  pose proof (SFcompare_antisym (Prim2SF a) (Prim2SF b)) as Hba.
  rewrite E in Hba.
  destruct c; simpl in *; try discriminate; intros _;
    rewrite FloatAxioms.eqb_spec; unfold SFeqb.
  - now rewrite Hba.
  - now rewrite Hbb.
Qed.

(** ** Helpers on [result] and on the geometry *)

Lemma raise_not_returns {A : Type} (e : exn) (r : result A) :
  r = Raise e -> ~ returns r.
Proof. intros -> [a Ha]. discriminate Ha. Qed.

Lemma game_center_some (p : Game.Player) (d : Detection.t) :
  Game.detection p = Some d ->
  Game.center p = Ok (spec_center (Detection.points d)).
Proof.
  intros Hd. unfold Game.center, Game.get_center, spec_center.
  rewrite Hd. simpl.
  destruct (Detection.points d) as [[x1 y1] [x2 y2]]. reflexivity.
Qed.

Lemma game_center_abs_some (p : Game.Player) (d : Detection.t) :
  Game.detection p = Some d ->
  Game.center_abs p = Ok (spec_center (Detection.points d)).
Proof.
  intros Hd. unfold Game.center_abs, Game.get_center, spec_center.
  rewrite Hd. simpl.
  destruct (Detection.points d) as [[x1 y1] [x2 y2]]. reflexivity.
Qed.

Lemma game_left_foot_some (p : Game.Player) (d : Detection.t) :
  Game.detection p = Some d ->
  Game.left_foot p = Ok (Game.get_left_foot (Detection.points d)).
Proof. intros Hd. unfold Game.left_foot. now rewrite Hd. Qed.

Lemma game_right_foot_some (p : Game.Player) (d : Detection.t) :
  Game.detection p = Some d ->
  Game.right_foot p = Ok (Game.get_right_foot (Detection.points d)).
Proof. intros Hd. unfold Game.right_foot. now rewrite Hd. Qed.

Lemma soccer_left_foot_some (p : Soccer.Player) (d : Detection.t) :
  Soccer.detection p = Some d ->
  Soccer.left_foot p = Ok (Game.get_left_foot (Detection.points d)).
Proof.
  intros Hd. unfold Soccer.left_foot, Game.get_left_foot. rewrite Hd. simpl.
  destruct (Detection.points d) as [[x1 y1] [x2 y2]]. reflexivity.
Qed.

Lemma soccer_right_foot_some (p : Soccer.Player) (d : Detection.t) :
  Soccer.detection p = Some d ->
  Soccer.right_foot p = Ok (Game.get_right_foot (Detection.points d)).
Proof. intros Hd. unfold Soccer.right_foot. now rewrite Hd. Qed.

(** ** Players without a detection *)

(** C1, as the code has it: on a Player whose Detection is null every
    geometric accessor ([left_foot], [right_foot], [feet], [center],
    [left_foot_abs], [right_foot_abs], [center_abs]; in [soccer/player.py]
    [left_foot], [right_foot], [feet]) raises [AttributeError]: no
    coordinates are made up, and nothing is returned, not even null.  Null
    is what the guarded queries return for such a Player. *)
Theorem null_detection_accessors_raise :
  (forall p : Game.Player, Game.detection p = None ->
     Game.left_foot p = Raise AttributeError /\
     Game.right_foot p = Raise AttributeError /\
     Game.feet p = Raise AttributeError /\
     Game.center p = Raise AttributeError /\
     Game.left_foot_abs p = Raise AttributeError /\
     Game.right_foot_abs p = Raise AttributeError /\
     Game.center_abs p = Raise AttributeError) /\
  (forall p : Soccer.Player, Soccer.detection p = None ->
     Soccer.left_foot p = Raise AttributeError /\
     Soccer.right_foot p = Raise AttributeError /\
     Soccer.feet p = Raise AttributeError) /\
  (forall (p : Game.Player) (ball : Ball.t), Game.detection p = None ->
     Game.distance_to_ball p ball = Ok None /\
     Game.distance_to_last_ball p ball = Ok None /\
     Game.closest_foot_to_ball p ball = Ok None /\
     Game.closest_center_to_ball_abs p ball = Ok None /\
     Game.closest_foot_to_ball_abs p ball = Ok None) /\
  (forall (p : Soccer.Player) (ball : Ball.t), Soccer.detection p = None ->
     Soccer.distance_to_ball p ball = Ok None /\
     Soccer.closest_foot_to_ball p ball = Ok None).
Proof.
  repeat split.
  all: match goal with
       | H : _ = None |- _ =>
           cbv [Game.left_foot Game.right_foot Game.feet Game.center
                Game.left_foot_abs Game.right_foot_abs Game.center_abs
                Game.distance_to_ball Game.distance_to_last_ball
                Game.closest_foot_to_ball Game.closest_center_to_ball_abs
                Game.closest_foot_to_ball_abs
                Soccer.left_foot Soccer.right_foot Soccer.feet
                Soccer.distance_to_ball Soccer.closest_foot_to_ball];
           rewrite ?H; try reflexivity
       end.
Qed.

(** The accessors of the player that [Player(detection=None)] builds. *)
Lemma null_detection_accessors_raise_witness :
  Game.left_foot (Game.__init__ None) = Raise AttributeError /\
  Soccer.feet (Soccer.__init__ None) = Raise AttributeError.
Proof.
  split.
  - apply (proj1 null_detection_accessors_raise (Game.__init__ None)).
    reflexivity.
  - apply (proj1 (proj2 null_detection_accessors_raise) (Soccer.__init__ None)).
    reflexivity.
Defined.

(** Against C1 as stated: [Player(detection=None).left_foot] does not
    return null, it does not return at all. *)
Lemma null_detection_left_foot_does_not_return :
  ~ returns (Game.left_foot (Game.__init__ None)).
Proof. apply (raise_not_returns AttributeError). reflexivity. Qed.

(** ** The feet of a bounding region *)

(** C2, as the code has it: for every 2-point region [(x1,y1),(x2,y2)] the
    left-foot accessor returns [(x1, y2)], the x of the first corner with
    the y of the second one, in both modules; when [y1 <= y2] that y
    compares equal to [max(y1, y2)]. *)
Theorem left_foot_is_x1_y2 (x1 y1 x2 y2 : float) :
  let points : bbox := ((x1, y1), (x2, y2)) in
  Game.get_left_foot points = (x1, y2) /\
  (forall p : Game.Player, forall d : Detection.t,
     Game.detection p = Some d -> Detection.points d = points ->
     Game.left_foot p = Ok (x1, y2)) /\
  (forall p : Soccer.Player, forall d : Detection.t,
     Soccer.detection p = Some d -> Detection.points d = points ->
     Soccer.left_foot p = Ok (x1, y2)) /\
  ((y1 <=? y2)%float = true ->
     (snd (Game.get_left_foot points) =? snd (spec_left_foot points))%float = true).
Proof.
  cbn zeta. split; [reflexivity|]. split; [|split].
  - intros p d Hd Hp. rewrite (game_left_foot_some p d Hd), Hp. reflexivity.
  - intros p d Hd Hp. rewrite (soccer_left_foot_some p d Hd), Hp. reflexivity.
  - intros Hle. cbn. now apply float_leb_py_max.
Qed.

(** The region [(0,3),(2,5)], whose second corner is the lower one. *)
Lemma left_foot_is_x1_y2_witness :
  Game.get_left_foot ((0, 3), (2, 5))%float = (0, 5)%float /\
  (5 =? snd (spec_left_foot ((0, 3), (2, 5))))%float = true.
Proof.
  split.
  - exact (proj1 (left_foot_is_x1_y2 0 3 2 5)).
  - apply (proj2 (proj2 (proj2 (left_foot_is_x1_y2 0 3 2 5)))).
    vm_compute. reflexivity.
Defined.

(** Against C2 as stated: on the region [(0,5),(2,3)] the accessor returns
    [(0,3)] where [(x1, max(y1,y2))] is [(0,5)]. *)
Lemma left_foot_is_not_the_max :
  Game.get_left_foot ((0, 5), (2, 3))%float = (0, 3)%float /\
  spec_left_foot ((0, 5), (2, 3))%float = (0, 5)%float /\
  Game.get_left_foot ((0, 5), (2, 3))%float
    <> spec_left_foot ((0, 5), (2, 3))%float.
Proof.
  split; [reflexivity|]. split; [reflexivity|].
  intros H. apply (f_equal (fun q : point => (snd q =? 3)%float)) in H.
  vm_compute in H. discriminate H.
Qed.

(** ** The motion mask *)

Lemma in_slice_empty (start stop i : nat) :
  (stop <= start)%nat -> RunUtils.in_slice start stop i = false.
Proof.
  intros Hle. unfold RunUtils.in_slice.
  destruct (Nat.leb_spec start i) as [Hs|Hs]; [|reflexivity].
  destruct (Nat.ltb_spec i stop) as [Ht|Ht]; [lia|reflexivity].
Qed.

Lemma imap_same {A : Type} (l : list A) : imap (fun _ x => x) l = l.
Proof.
  apply list_eq. intros i. rewrite list_lookup_imap.
  now destruct (l !! i).
Qed.

(** A slice whose stop is not past its start selects no row: the
    assignment changes nothing. *)
Lemma assign_slice_no_rows (r0 r1 c0 c1 : nat) (v : Z) (mask : RunUtils.Mask) :
  (r1 <= r0)%nat -> RunUtils.assign_slice r0 r1 c0 c1 v mask = mask.
Proof.
  intros Hle. unfold RunUtils.assign_slice.
  rewrite <- (imap_same mask) at 2.
  apply imap_ext. intros i row _. simpl.
  now rewrite (in_slice_empty r0 r1 i Hle).
Qed.

(** A slice with its bounds in order does write: the cells inside it hold
    the assigned value afterwards. *)
Lemma assign_slice_inside (r0 r1 c0 c1 : nat) (v x : Z) (mask : RunUtils.Mask)
    (i j : nat) :
  (r0 <= i < r1)%nat -> (c0 <= j < c1)%nat ->
  RunUtils.pixel mask i j = Some x ->
  RunUtils.pixel (RunUtils.assign_slice r0 r1 c0 c1 v mask) i j = Some v.
Proof.
  intros [Hr0 Hr1] [Hc0 Hc1]. unfold RunUtils.pixel, RunUtils.assign_slice.
  rewrite list_lookup_imap.
  destruct (mask !! i) as [row|]; simpl; [|discriminate].
  assert (Hin : forall a b k, (a <= k < b)%nat -> RunUtils.in_slice a b k = true).
  { intros a b k [Ha Hb]. unfold RunUtils.in_slice.
    apply andb_true_iff. split; [now apply Nat.leb_le | now apply Nat.ltb_lt]. }
  rewrite (Hin r0 r1 i) by lia. rewrite list_lookup_imap.
  destruct (row !! j) as [y|]; simpl; [|discriminate].
  intros _. now rewrite (Hin c0 c1 j) by lia.
Qed.

Lemma pixel_ones (frame : RunUtils.Frame) (i j : nat) :
  (i < RunUtils.height frame)%nat -> (j < RunUtils.width frame)%nat ->
  RunUtils.pixel (RunUtils.ones frame) i j = Some 1.
Proof.
  intros Hi Hj. unfold RunUtils.pixel, RunUtils.ones.
  rewrite (lookup_replicate_2 _ _ _ Hi). simpl.
  now apply lookup_replicate_2.
Qed.

(** C3, what [create_mask] computes: both slice assignments,
    [mask[363:118, 856:64] = 0] and [mask[1589:143, 1805:95] = 0], have
    their stop before their start and select nothing, so the mask is
    returned as it was built; with no detection every cell of a 1080 x 1920
    frame is 1, among them row 100, column 500 of the goal counter and
    row 120, column 1700 of the broadcaster logo. *)
Theorem create_mask_zeroes_nothing
    (generate_predictions_mask : list Detection.t -> RunUtils.Frame -> Z -> RunUtils.Mask) :
  (forall frame detections,
     RunUtils.create_mask generate_predictions_mask frame detections =
     match detections with
     | [] => RunUtils.ones frame
     | _ => generate_predictions_mask detections frame 40
     end) /\
  (let mask := RunUtils.create_mask generate_predictions_mask
                 (RunUtils.mkFrame 1080 1920) [] in
   RunUtils.pixel mask 100 500 = Some 1 /\
   RunUtils.pixel mask 120 1700 = Some 1).
Proof.
  assert (Hcm : forall frame detections,
     RunUtils.create_mask generate_predictions_mask frame detections =
     match detections with
     | [] => RunUtils.ones frame
     | _ => generate_predictions_mask detections frame 40
     end).
  { intros frame detections. unfold RunUtils.create_mask.
    rewrite !assign_slice_no_rows by lia. reflexivity. }
  split; [exact Hcm|]. cbn zeta. rewrite Hcm.
  split; apply pixel_ones; simpl; lia.
Qed.

(** ** Distances to the ball *)

Lemma game_distance_to_ball_some (p : Game.Player) (ball : Ball.t)
    (d : Detection.t) (c : point) :
  Game.detection p = Some d -> Ball.center ball = Some c ->
  Game.distance_to_ball p ball =
  Ok (Some (euclidean_distance c (spec_center (Detection.points d)))).
Proof.
  intros Hd Hc. unfold Game.distance_to_ball.
  rewrite (game_center_some p d Hd). rewrite Hd, Hc. reflexivity.
Qed.

(** C4, as the code has it: with a non-null Detection and a non-null ball
    center, [distance_to_ball] of [game/player.py] returns the Euclidean
    distance between the ball's center and the player's center, and
    [distance_to_ball] of [soccer/player.py] returns the smaller of the
    distances from the ball's center to the left and to the right foot;
    both return null when the Detection or the ball's center is null. *)
Theorem distance_to_ball_by_module :
  (forall (p : Game.Player) (ball : Ball.t) (d : Detection.t) (c : point),
     Game.detection p = Some d -> Ball.center ball = Some c ->
     Game.distance_to_ball p ball =
     Ok (Some (euclidean_distance c (spec_center (Detection.points d))))) /\
  (forall (p : Soccer.Player) (ball : Ball.t) (d : Detection.t) (c : point),
     Soccer.detection p = Some d -> Ball.center ball = Some c ->
     Soccer.distance_to_ball p ball =
     Ok (Some (py_min
                 (euclidean_distance c (Game.get_left_foot (Detection.points d)))
                 (euclidean_distance c (Game.get_right_foot (Detection.points d)))))) /\
  (forall (p : Game.Player) (ball : Ball.t),
     Game.detection p = None \/ Ball.center ball = None ->
     Game.distance_to_ball p ball = Ok None) /\
  (forall (p : Soccer.Player) (ball : Ball.t),
     Soccer.detection p = None \/ Ball.center ball = None ->
     Soccer.distance_to_ball p ball = Ok None).
Proof.
  split; [exact game_distance_to_ball_some|]. split; [|split].
  - intros p ball d c Hd Hc. unfold Soccer.distance_to_ball.
    rewrite (soccer_left_foot_some p d Hd), (soccer_right_foot_some p d Hd).
    rewrite Hd, Hc. reflexivity.
  - intros p ball [H|H]; unfold Game.distance_to_ball; rewrite H;
      [reflexivity | now destruct (Game.detection p)].
  - intros p ball [H|H]; unfold Soccer.distance_to_ball; rewrite H;
      [reflexivity | now destruct (Soccer.detection p)].
Qed.

(** The box [(0,0),(6,8)] with the ball at [(3,4)], in both modules. *)
Lemma distance_to_ball_by_module_witness :
  Game.distance_to_ball
    (Game.__init__ (Some (detection_of ((0, 0), (6, 8))%float ∅)))
    (ball_at (3, 4)%float) = Ok (Some 0%float) /\
  Soccer.distance_to_ball
    (Soccer.__init__ (Some (detection_of ((0, 0), (6, 8))%float ∅)))
    (ball_at (3, 4)%float) = Ok (Some 5%float).
Proof.
  split.
  - rewrite (proj1 distance_to_ball_by_module
               (Game.__init__ (Some (detection_of ((0, 0), (6, 8))%float ∅)))
               (ball_at (3, 4)%float)
               (detection_of ((0, 0), (6, 8))%float ∅) (3, 4)%float
               eq_refl eq_refl).
    vm_compute. reflexivity.
  - rewrite (proj1 (proj2 distance_to_ball_by_module)
               (Soccer.__init__ (Some (detection_of ((0, 0), (6, 8))%float ∅)))
               (ball_at (3, 4)%float)
               (detection_of ((0, 0), (6, 8))%float ∅) (3, 4)%float
               eq_refl eq_refl).
    vm_compute. reflexivity.
Defined.

(** Against C4 as stated: for the box [(0,0),(6,8)] and the ball at its
    center [(3,4)], [distance_to_ball] of [soccer/player.py] returns 5, the
    distance to either foot, where the distance between the centers is 0. *)
Lemma soccer_distance_is_not_between_centers :
  let d := detection_of ((0, 0), (6, 8))%float ∅ in
  let ball := ball_at (3, 4)%float in
  Soccer.distance_to_ball (Soccer.__init__ (Some d)) ball = Ok (Some 5%float) /\
  euclidean_distance (3, 4)%float (spec_center (Detection.points d)) = 0%float /\
  Soccer.distance_to_ball (Soccer.__init__ (Some d)) ball <>
  Ok (Some (euclidean_distance (3, 4)%float (spec_center (Detection.points d)))).
Proof.
  cbn zeta. split; [vm_compute; reflexivity|]. split; [vm_compute; reflexivity|].
  intros H.
  apply (f_equal (fun r : result (option float) =>
                    match r with
                    | Ok (Some x) => (x =? 0)%float
                    | _ => false
                    end)) in H.
  vm_compute in H. discriminate H.
Qed.

(** C7 at the code: when the ball's current center is null and the ball
    retains a last detection, [distance_to_last_ball] reads
    [ball.last_detection.center]; the last detection is a norfair
    [Detection], which has no [center], so for every Player with a
    Detection the call raises [AttributeError] instead of returning the
    distance to the center of that detection; only with no last detection
    does it return null.  It raises for the box [(0,0),(2,4)] and the ball
    last detected in the box [(0,4),(2,6)], whose center [(1,5)] is at
    distance 3 from the player's center [(1,2)]. *)
Theorem distance_to_last_ball_last_detection_raises :
  (forall (txy be_xy : option point) (d : Detection.t) (in_possession : bool)
          (team : pyval) (detection : option Detection.t) (last : Detection.t)
          (center_abs : option point),
     Game.distance_to_last_ball
       (Game.mkPlayer txy be_xy (Some d) in_possession team)
       (Ball.mk detection (Some last) None center_abs)
     = Raise AttributeError) /\
  (forall (txy be_xy : option point) (d : Detection.t) (in_possession : bool)
          (team : pyval) (detection : option Detection.t)
          (center_abs : option point),
     Game.distance_to_last_ball
       (Game.mkPlayer txy be_xy (Some d) in_possession team)
       (Ball.mk detection None None center_abs)
     = Ok None) /\
  (let p := Game.__init__ (Some (detection_of ((0, 0), (2, 4))%float ∅)) in
   let last := detection_of ((0, 4), (2, 6))%float ∅ in
   Game.center p = Ok (1, 2)%float /\
   spec_center (Detection.points last) = (1, 5)%float /\
   euclidean_distance (1, 5)%float (1, 2)%float = 3%float /\
   Game.distance_to_last_ball p (ball_last_seen last) = Raise AttributeError).
Proof.
  split; [|split].
  - intros. reflexivity.
  - intros. reflexivity.
  - cbn zeta. repeat split; vm_compute; reflexivity.
Qed.

(** ** The closest foot *)

Lemma game_closest_foot_some (p : Game.Player) (ball : Ball.t)
    (d : Detection.t) (c : point) :
  Game.detection p = Some d -> Ball.center ball = Some c ->
  Game.closest_foot_to_ball p ball =
  Ok (Some (if (euclidean_distance c (Game.get_left_foot (Detection.points d))
                <? euclidean_distance c (Game.get_right_foot (Detection.points d)))%float
            then Game.get_left_foot (Detection.points d)
            else Game.get_right_foot (Detection.points d))).
Proof.
  intros Hd Hc. unfold Game.closest_foot_to_ball.
  rewrite (game_left_foot_some p d Hd), (game_right_foot_some p d Hd).
  rewrite Hd, Hc. unfold euclidean_distance. simpl.
  now destruct (_ <? _)%float.
Qed.

Lemma soccer_closest_foot_some (p : Soccer.Player) (ball : Ball.t)
    (d : Detection.t) (c : point) :
  Soccer.detection p = Some d -> Ball.center ball = Some c ->
  Soccer.closest_foot_to_ball p ball =
  Ok (Some (if (euclidean_distance c (Game.get_left_foot (Detection.points d))
                <? euclidean_distance c (Game.get_right_foot (Detection.points d)))%float
            then Game.get_left_foot (Detection.points d)
            else Game.get_right_foot (Detection.points d))).
Proof.
  intros Hd Hc. unfold Soccer.closest_foot_to_ball.
  rewrite (soccer_left_foot_some p d Hd), (soccer_right_foot_some p d Hd).
  rewrite Hd, Hc. unfold euclidean_distance. simpl.
  now destruct (_ <? _)%float.
Qed.

(** C5: for a Player with a non-null Detection and a ball with a non-null
    center, [closest_foot_to_ball] (in both modules) returns the left foot
    when the distance from the ball's center to the left foot is strictly
    less than the distance to the right foot, and the right foot otherwise;
    when the two distances are equal it returns the right foot. *)
Theorem closest_foot_to_ball_strict
    (d : Detection.t) (c : point)
    (gp : Game.Player) (sp : Soccer.Player) (ball : Ball.t)
    (Hg : Game.detection gp = Some d) (Hs : Soccer.detection sp = Some d)
    (Hc : Ball.center ball = Some c) :
  let left := Game.get_left_foot (Detection.points d) in
  let right := Game.get_right_foot (Detection.points d) in
  let left_foot_distance := euclidean_distance c left in
  let right_foot_distance := euclidean_distance c right in
  Game.left_foot gp = Ok left /\ Game.right_foot gp = Ok right /\
  Soccer.left_foot sp = Ok left /\ Soccer.right_foot sp = Ok right /\
  ((left_foot_distance <? right_foot_distance)%float = true ->
     Game.closest_foot_to_ball gp ball = Ok (Some left) /\
     Soccer.closest_foot_to_ball sp ball = Ok (Some left)) /\
  ((left_foot_distance <? right_foot_distance)%float = false ->
     Game.closest_foot_to_ball gp ball = Ok (Some right) /\
     Soccer.closest_foot_to_ball sp ball = Ok (Some right)) /\
  ((left_foot_distance =? right_foot_distance)%float = true ->
     Game.closest_foot_to_ball gp ball = Ok (Some right) /\
     Soccer.closest_foot_to_ball sp ball = Ok (Some right)).
Proof.
  cbn zeta.
  rewrite (game_closest_foot_some gp ball d c Hg Hc).
  rewrite (soccer_closest_foot_some sp ball d c Hs Hc).
  rewrite (game_left_foot_some gp d Hg), (game_right_foot_some gp d Hg).
  rewrite (soccer_left_foot_some sp d Hs), (soccer_right_foot_some sp d Hs).
  repeat (split; [reflexivity|]).
  split; [|split].
  - intros ->. split; reflexivity.
  - intros ->. split; reflexivity.
  - intros Heq. rewrite (float_eqb_not_ltb _ _ Heq). split; reflexivity.
Qed.

(** The box [(0,0),(2,4)] with the ball at [(1,4)]: both feet are at
    distance 1, and the right foot [(2,4)] is returned. *)
Lemma closest_foot_to_ball_strict_witness :
  Game.closest_foot_to_ball
    (Game.__init__ (Some (detection_of ((0, 0), (2, 4))%float ∅)))
    (ball_at (1, 4)%float) = Ok (Some (2, 4)%float) /\
  Soccer.closest_foot_to_ball
    (Soccer.__init__ (Some (detection_of ((0, 0), (2, 4))%float ∅)))
    (ball_at (1, 4)%float) = Ok (Some (2, 4)%float).
Proof.
  apply (proj2 (proj2 (proj2 (proj2 (proj2 (proj2
           (closest_foot_to_ball_strict
              (detection_of ((0, 0), (2, 4))%float ∅) (1, 4)%float
              (Game.__init__ (Some (detection_of ((0, 0), (2, 4))%float ∅)))
              (Soccer.__init__ (Some (detection_of ((0, 0), (2, 4))%float ∅)))
              (ball_at (1, 4)%float) eq_refl eq_refl eq_refl))))))).
  vm_compute. reflexivity.
Defined.

(** ** The closest center in absolute space *)

(** What [closest_center_to_ball_abs] computes: [get_center] drops its
    argument, so [self.center_abs] is the center of [detection.points], and
    the distance compared with the pixel-space one is taken between the
    ball's absolute center and the player's pixel-space center. *)
Lemma game_closest_center_abs_some (p : Game.Player) (ball : Ball.t)
    (d : Detection.t) (c ca : point) :
  Game.detection p = Some d ->
  Ball.center ball = Some c -> Ball.center_abs ball = Some ca ->
  Game.closest_center_to_ball_abs p ball =
  Ok (if (euclidean_distance ca (spec_center (Detection.points d))
          <=? euclidean_distance c (spec_center (Detection.points d)))%float
      then Some (spec_center (Detection.points d))
      else None).
Proof.
  intros Hd Hc Hca. unfold Game.closest_center_to_ball_abs.
  rewrite (game_distance_to_ball_some p ball d c Hd Hc).
  rewrite (game_center_abs_some p d Hd), (game_center_some p d Hd).
  rewrite Hd, Hca. unfold euclidean_distance. simpl.
  now destruct (_ <=? _)%float.
Qed.

(** The filter itself: the center is returned when the measured distance
    is at most the pixel-space one, null when it is strictly greater. *)
Lemma game_closest_center_abs_filter (p : Game.Player) (ball : Ball.t)
    (d : Detection.t) (c ca : point) :
  Game.detection p = Some d ->
  Ball.center ball = Some c -> Ball.center_abs ball = Some ca ->
  let measured := euclidean_distance ca (spec_center (Detection.points d)) in
  let pixel_distance := euclidean_distance c (spec_center (Detection.points d)) in
  ((measured <=? pixel_distance)%float = true ->
     Game.closest_center_to_ball_abs p ball
       = Ok (Some (spec_center (Detection.points d)))) /\
  ((pixel_distance <? measured)%float = true ->
     Game.closest_center_to_ball_abs p ball = Ok None).
Proof.
  intros Hd Hc Hca. cbn zeta.
  rewrite (game_closest_center_abs_some p ball d c ca Hd Hc Hca).
  split.
  - intros ->. reflexivity.
  - intros Hlt. rewrite (float_ltb_not_leb _ _ Hlt). reflexivity.
Qed.

(** C6 at a player whose box [(0,0),(2,2)] has the absolute points
    [(10,10),(12,12)], with the ball at the player's center in both spaces
    ([(1,1)] in pixels, [(11,11)] in absolute coordinates): the
    absolute-space distance between the centers is 0, as is the pixel-space
    one, yet [center_abs] is [(1,1)] and the method returns null. *)
Theorem closest_center_abs_measures_to_pixel_center :
  let d := Detection.mk ((0, 0), (2, 2))%float ((10, 10), (12, 12))%float ∅ in
  let p := Game.__init__ (Some d) in
  let ball := Ball.mk None None (Some (1, 1)%float) (Some (11, 11)%float) in
  spec_center (Detection.absolute_points d) = (11, 11)%float /\
  euclidean_distance (11, 11)%float (spec_center (Detection.absolute_points d))
    = 0%float /\
  Game.distance_to_ball p ball = Ok (Some 0%float) /\
  Game.center p = Ok (1, 1)%float /\
  Game.center_abs p = Ok (1, 1)%float /\
  Game.closest_center_to_ball_abs p ball = Ok None.
Proof. cbn zeta. repeat split; vm_compute; reflexivity. Qed.

(** ** Equality of players *)

(** C8, as the code has it: between two Players whose Detections are
    non-null and carry an "id", [__eq__] is decided by comparing the two
    stored identifiers and nothing else; against a non-Player it yields
    false without raising; when the Detection of the left Player is null
    (so also when both are) it raises [AttributeError], and so does a null
    Detection of the right Player once the left identifier is read. *)
Theorem eq_compares_ids :
  (forall (p q : Game.Player) (dp dq : Detection.t) (ip iq : pyval),
     Game.detection p = Some dp -> Game.detection q = Some dq ->
     Detection.data dp !! "id" = Some ip ->
     Detection.data dq !! "id" = Some iq ->
     Game.__eq__ (Game.OPlayer p) (Game.OPlayer q) = Ok (py_eqb ip iq)) /\
  (forall (p : Game.Player) (v : pyval),
     Game.__eq__ (Game.OPlayer p) (Game.OOther v) = Ok false /\
     Game.__eq__ (Game.OOther v) (Game.OPlayer p) = Ok false) /\
  (forall p q : Game.Player, Game.detection p = None ->
     Game.__eq__ (Game.OPlayer p) (Game.OPlayer q) = Raise AttributeError) /\
  (forall (p q : Game.Player) (dp : Detection.t) (ip : pyval),
     Game.detection p = Some dp -> Detection.data dp !! "id" = Some ip ->
     Game.detection q = None ->
     Game.__eq__ (Game.OPlayer p) (Game.OPlayer q) = Raise AttributeError).
Proof.
  split; [|split; [|split]].
  - intros p q dp dq ip iq Hp Hq Hip Hiq. unfold Game.__eq__, getitem.
    simpl. rewrite Hp, Hq. simpl. rewrite Hip, Hiq. reflexivity.
  - intros p v. split; reflexivity.
  - intros p q Hp. unfold Game.__eq__. simpl. rewrite Hp. reflexivity.
  - intros p q dp ip Hp Hip Hq. unfold Game.__eq__, getitem.
    simpl. rewrite Hp, Hq. simpl. rewrite Hip. reflexivity.
Qed.

(** Two detections with the tracker identifier 7 at different places, and
    one with the identifier 8 at the place of the first. *)
Lemma eq_compares_ids_witness :
  Game.__eq__
    (Game.OPlayer (Game.__init__ (Some (detection_of ((0, 0), (2, 4))%float {["id" := VInt 7]}))))
    (Game.OPlayer (Game.__init__ (Some (detection_of ((9, 9), (11, 13))%float {["id" := VInt 7]}))))
  = Ok true /\
  Game.__eq__
    (Game.OPlayer (Game.__init__ (Some (detection_of ((0, 0), (2, 4))%float {["id" := VInt 7]}))))
    (Game.OPlayer (Game.__init__ (Some (detection_of ((0, 0), (2, 4))%float {["id" := VInt 8]}))))
  = Ok false.
Proof.
  split.
  - apply (proj1 eq_compares_ids
             (Game.__init__ (Some (detection_of ((0, 0), (2, 4))%float {["id" := VInt 7]})))
             (Game.__init__ (Some (detection_of ((9, 9), (11, 13))%float {["id" := VInt 7]})))
             (detection_of ((0, 0), (2, 4))%float {["id" := VInt 7]})
             (detection_of ((9, 9), (11, 13))%float {["id" := VInt 7]})
             (VInt 7) (VInt 7)); reflexivity.
  - apply (proj1 eq_compares_ids
             (Game.__init__ (Some (detection_of ((0, 0), (2, 4))%float {["id" := VInt 7]})))
             (Game.__init__ (Some (detection_of ((0, 0), (2, 4))%float {["id" := VInt 8]})))
             (detection_of ((0, 0), (2, 4))%float {["id" := VInt 7]})
             (detection_of ((0, 0), (2, 4))%float {["id" := VInt 8]})
             (VInt 7) (VInt 8)); reflexivity.
Defined.

(** Against C8 as stated: comparing two Players that have no Detection
    does not yield false, it raises. *)
Lemma eq_of_null_detections_raises :
  Game.__eq__ (Game.OPlayer (Game.__init__ None)) (Game.OPlayer (Game.__init__ None))
    = Raise AttributeError /\
  Game.__eq__ (Game.OPlayer (Game.__init__ None)) (Game.OPlayer (Game.__init__ None))
    <> Ok false.
Proof. split; [reflexivity | discriminate]. Qed.

(** ** Building the players of a frame *)

Lemma game_from_detections_loop_spec (teams : list Team)
    (detections : list (option Detection.t)) (players : list Game.Player) :
  Game.from_detections_loop teams detections players =
  players ++ ((fun d => Game.__init__ (Some (Game.classify teams d)))
                <$> survivors detections).
Proof.
  revert players. induction detections as [|[d|] rest IH]; intros players.
  - simpl. now rewrite app_nil_r.
  - simpl. rewrite IH, <- app_assoc. reflexivity.
  - simpl. apply IH.
Qed.

Lemma soccer_from_detections_loop_spec (teams : list Team)
    (detections : list (option Detection.t)) (players : list Soccer.Player) :
  Soccer.from_detections_loop teams detections players =
  players ++ ((fun d => Soccer.__init__ (Some (Soccer.classify teams d)))
                <$> survivors detections).
Proof.
  revert players. induction detections as [|[d|] rest IH]; intros players.
  - simpl. now rewrite app_nil_r.
  - simpl. rewrite IH, <- app_assoc. reflexivity.
  - simpl. apply IH.
Qed.

Lemma survivors_length (detections : list (option Detection.t)) :
  (length (survivors detections) <= length detections)%nat.
Proof.
  induction detections as [|[d|] rest IH]; simpl; unfold survivors in *; simpl; lia.
Qed.

Lemma survivors_no_null (detections : list Detection.t) :
  survivors (Some <$> detections) = detections.
Proof.
  induction detections as [|d rest IH]; [reflexivity|].
  unfold survivors in *. cbn. f_equal. exact IH.
Qed.

Lemma game_classify_spec (teams : list Team) (d : Detection.t) :
  Detection.points (Game.classify teams d) = Detection.points d /\
  Detection.absolute_points (Game.classify teams d) = Detection.absolute_points d /\
  (forall key : string, key <> "team" ->
     Detection.data (Game.classify teams d) !! key = Detection.data d !! key) /\
  match Detection.data d !! "classification" with
  | Some name =>
      Detection.data (Game.classify teams d) !! "team" = Some (from_name teams name)
  | None => Game.classify teams d = d
  end.
Proof.
  unfold Game.classify.
  destruct (Detection.data d !! "classification") as [name|]; simpl.
  - repeat split; [|apply lookup_insert_eq].
    intros key Hkey. now apply lookup_insert_ne.
  - repeat split; reflexivity.
Qed.

(** C9: [from_detections] (in both modules) returns, for every list of
    detections, one Player per non-null detection, in the order of the
    list and with repeats kept, so never more than the list holds; null
    detections are passed over; a detection that carries a
    "classification" has the Team resolved from it stored under "team" in
    its attribute map when the Player is built, which is the team the
    Player then has; nothing else of the detection changes. *)
Theorem from_detections_one_player_per_detection
    (detections : list (option Detection.t)) (teams : list Team) :
  Game.from_detections detections teams =
    ((fun d => Game.__init__ (Some (Game.classify teams d)))
       <$> survivors detections) /\
  Soccer.from_detections detections teams =
    ((fun d => Soccer.__init__ (Some (Soccer.classify teams d)))
       <$> survivors detections) /\
  length (Game.from_detections detections teams) = length (survivors detections) /\
  length (Soccer.from_detections detections teams) = length (survivors detections) /\
  (length (Game.from_detections detections teams) <= length detections)%nat /\
  (length (Soccer.from_detections detections teams) <= length detections)%nat /\
  (forall d : Detection.t,
     Soccer.classify teams d = Game.classify teams d /\
     Game.detection (Game.__init__ (Some (Game.classify teams d)))
       = Some (Game.classify teams d) /\
     Soccer.detection (Soccer.__init__ (Some (Game.classify teams d)))
       = Some (Game.classify teams d) /\
     Detection.points (Game.classify teams d) = Detection.points d /\
     Detection.absolute_points (Game.classify teams d) = Detection.absolute_points d /\
     (forall key : string, key <> "team" ->
        Detection.data (Game.classify teams d) !! key = Detection.data d !! key) /\
     match Detection.data d !! "classification" with
     | Some name =>
         Detection.data (Game.classify teams d) !! "team"
           = Some (from_name teams name) /\
         Game.team (Game.__init__ (Some (Game.classify teams d)))
           = from_name teams name /\
         Soccer.team (Soccer.__init__ (Some (Game.classify teams d)))
           = from_name teams name
     | None => Game.classify teams d = d
     end).
Proof.
  assert (Hg := game_from_detections_loop_spec teams detections []).
  assert (Hs := soccer_from_detections_loop_spec teams detections []).
  simpl in Hg, Hs. fold (Game.from_detections detections teams) in Hg.
  fold (Soccer.from_detections detections teams) in Hs.
  pose proof (survivors_length detections) as Hlen.
  rewrite Hg, Hs, !length_fmap.
  do 6 (split; [first [reflexivity | exact Hlen]|]).
  intros d. destruct (game_classify_spec teams d) as (Hp & Ha & Hk & Ht).
  do 6 (split; [first [reflexivity | assumption]|]).
  destruct (Detection.data d !! "classification") as [name|]; [|exact Ht].
  split; [exact Ht|]. unfold Game.__init__, Soccer.__init__. simpl.
  rewrite Ht. split; reflexivity.
Qed.

(** A batch with a null entry between two detections that carry the same
    tracker identifier: two players, in order, the classified one with its
    team. *)
Lemma from_detections_sample :
  let red := mkTeam "TeamRed" (255, 0, 0) in
  let a := detection_of ((0, 0), (2, 4))%float
             {["id" := VInt 7; "classification" := VStr "TeamRed"]} in
  let b := detection_of ((10, 0), (12, 4))%float {["id" := VInt 7]} in
  (Game.team <$> Game.from_detections [Some a; None; Some b] [red])
    = [VTeam red; VNone] /\
  ((fun p => Detection.points <$> Game.detection p)
     <$> Game.from_detections [Some a; None; Some b] [red])
    = [Some (Detection.points a); Some (Detection.points b)].
Proof. cbn zeta. split; vm_compute; reflexivity. Qed.

(** ** Players with the same identifier *)

(** C10, as the code has it: [have_same_id] returns false without raising
    when either argument is null; for two Players whose Detections are
    non-null it returns false without raising when either attribute map
    lacks an "id" key, and otherwise returns true exactly when the two
    stored identifiers are equal.  A Player whose Detection is null makes
    it raise [AttributeError] when that Detection is reached. *)
Theorem have_same_id_with_detections :
  (forall player : option Game.Player,
     Game.have_same_id None player = Ok false /\
     Game.have_same_id player None = Ok false) /\
  (forall (p1 p2 : Game.Player) (d1 d2 : Detection.t),
     Game.detection p1 = Some d1 -> Game.detection p2 = Some d2 ->
     (Detection.data d1 !! "id" = None \/ Detection.data d2 !! "id" = None ->
        Game.have_same_id (Some p1) (Some p2) = Ok false) /\
     (forall i1 i2 : pyval,
        Detection.data d1 !! "id" = Some i1 ->
        Detection.data d2 !! "id" = Some i2 ->
        Game.have_same_id (Some p1) (Some p2) = Ok (py_eqb i1 i2) /\
        (Game.have_same_id (Some p1) (Some p2) = Ok true <-> i1 = i2))) /\
  (forall p1 p2 : Game.Player, Game.detection p1 = None ->
     Game.have_same_id (Some p1) (Some p2) = Raise AttributeError) /\
  (forall (p1 p2 : Game.Player) (d1 : Detection.t) (i1 : pyval),
     Game.detection p1 = Some d1 -> Detection.data d1 !! "id" = Some i1 ->
     Game.detection p2 = None ->
     Game.have_same_id (Some p1) (Some p2) = Raise AttributeError).
Proof.
  split; [|split; [|split]].
  - intros [p|]; split; reflexivity.
  - intros p1 p2 d1 d2 H1 H2. split.
    + intros Hid. unfold Game.have_same_id, contains. rewrite H1, H2. simpl.
      destruct Hid as [Hid|Hid].
      * rewrite Hid. reflexivity.
      * rewrite Hid. destruct (Detection.data d1 !! "id"); reflexivity.
    + intros i1 i2 Hi1 Hi2.
      assert (Heq : Game.have_same_id (Some p1) (Some p2) = Ok (py_eqb i1 i2)).
      { unfold Game.have_same_id, contains, Game.__eq__, getitem.
        simpl. rewrite H1, H2. simpl. rewrite Hi1, Hi2. reflexivity. }
      split; [exact Heq|]. rewrite Heq. unfold py_eqb. split.
      * intros H. injection H as H. now apply bool_decide_eq_true in H.
      * intros ->. f_equal. now apply bool_decide_eq_true.
  - intros p1 p2 H1. unfold Game.have_same_id. rewrite H1. reflexivity.
  - intros p1 p2 d1 i1 H1 Hi1 H2. unfold Game.have_same_id, contains.
    rewrite H1, H2. simpl. rewrite Hi1. reflexivity.
Qed.

(** Identifier 7 against 7, and against a detection without identifier. *)
Lemma have_same_id_with_detections_witness :
  Game.have_same_id
    (Some (Game.__init__ (Some (detection_of ((0, 0), (2, 4))%float {["id" := VInt 7]}))))
    (Some (Game.__init__ (Some (detection_of ((9, 9), (11, 13))%float {["id" := VInt 7]}))))
  = Ok true /\
  Game.have_same_id
    (Some (Game.__init__ (Some (detection_of ((0, 0), (2, 4))%float {["id" := VInt 7]}))))
    (Some (Game.__init__ (Some (detection_of ((9, 9), (11, 13))%float ∅))))
  = Ok false.
Proof.
  split.
  - apply (proj2 (proj1 (proj2 have_same_id_with_detections)
             (Game.__init__ (Some (detection_of ((0, 0), (2, 4))%float {["id" := VInt 7]})))
             (Game.__init__ (Some (detection_of ((9, 9), (11, 13))%float {["id" := VInt 7]})))
             (detection_of ((0, 0), (2, 4))%float {["id" := VInt 7]})
             (detection_of ((9, 9), (11, 13))%float {["id" := VInt 7]})
             eq_refl eq_refl) (VInt 7) (VInt 7)); reflexivity.
  - apply (proj1 (proj1 (proj2 have_same_id_with_detections)
             (Game.__init__ (Some (detection_of ((0, 0), (2, 4))%float {["id" := VInt 7]})))
             (Game.__init__ (Some (detection_of ((9, 9), (11, 13))%float ∅)))
             (detection_of ((0, 0), (2, 4))%float {["id" := VInt 7]})
             (detection_of ((9, 9), (11, 13))%float ∅)
             eq_refl eq_refl)).
    right. reflexivity.
Defined.

(** Against C10 as stated: two Players, neither null, built without a
    Detection: [have_same_id] returns neither false nor true, it raises. *)
Lemma have_same_id_of_null_detections_raises :
  Game.have_same_id (Some (Game.__init__ None)) (Some (Game.__init__ None))
    = Raise AttributeError /\
  ~ returns (Game.have_same_id (Some (Game.__init__ None)) (Some (Game.__init__ None))).
Proof.
  split; [reflexivity|].
  apply (raise_not_returns AttributeError). reflexivity.
Qed.

(** * Further properties of the code *)

(** ** Ordered floats *)

Lemma comparable_cases (a b : float) :
  comparable a b = true ->
  exists c : comparison,
    SFcompare (Prim2SF a) (Prim2SF b) = Some c /\
    SFcompare (Prim2SF b) (Prim2SF a) = Some (CompOpp c) /\
    SFcompare (Prim2SF a) (Prim2SF a) = Some Eq /\
    SFcompare (Prim2SF b) (Prim2SF b) = Some Eq.
Proof.
  unfold comparable. rewrite !FloatAxioms.leb_spec. unfold SFleb.
  pose proof (SFcompare_antisym (Prim2SF a) (Prim2SF b)) as Hba.
  destruct (SFcompare (Prim2SF a) (Prim2SF b)) as [c|] eqn:Hab.
  - intros _. exists c. simpl in Hba.
    repeat split; [exact Hba | | exact (SFcompare_refl _ _ _ Hab)].
    exact (SFcompare_refl _ _ _ Hba).
  - simpl in Hba. rewrite Hba. discriminate.
Qed.

Lemma py_min_lower_bound (a b : float) :
  comparable a b = true ->
  (py_min a b = a \/ py_min a b = b) /\
  (py_min a b <=? a)%float = true /\ (py_min a b <=? b)%float = true.
Proof.
  intros (c & Hab & Hba & Haa & Hbb)%comparable_cases.
  unfold py_min. rewrite FloatAxioms.ltb_spec. unfold SFltb. rewrite Hba.
  destruct c; simpl; (split; [auto|]);
    rewrite !FloatAxioms.leb_spec; unfold SFleb;
    rewrite ?Hab, ?Hba, ?Haa, ?Hbb; split; reflexivity.
Qed.

Lemma comparable_sym (a b : float) : comparable a b = comparable b a.
Proof. unfold comparable. apply orb_comm. Qed.

(** ** More geometry of a player *)

(** X1: for a Player with a Detection, in both modules, the two feet lie on
    one horizontal line, the y of the second corner: the left foot is
    [(x1, y2)], the right foot [(x2, y2)], and [feet] is the pair of them in
    this order. *)
Theorem feet_on_one_line (d : Detection.t) (x1 y1 x2 y2 : float)
    (gp : Game.Player) (sp : Soccer.Player)
    (Hg : Game.detection gp = Some d) (Hs : Soccer.detection sp = Some d)
    (Hp : Detection.points d = ((x1, y1), (x2, y2))) :
  Game.feet gp = Ok ((x1, y2), (x2, y2)) /\
  Soccer.feet sp = Ok ((x1, y2), (x2, y2)) /\
  Game.left_foot gp = Ok (x1, y2) /\ Game.right_foot gp = Ok (x2, y2) /\
  Soccer.left_foot sp = Ok (x1, y2) /\ Soccer.right_foot sp = Ok (x2, y2).
Proof.
  unfold Game.feet, Soccer.feet.
  rewrite (game_left_foot_some gp d Hg), (game_right_foot_some gp d Hg).
  rewrite (soccer_left_foot_some sp d Hs), (soccer_right_foot_some sp d Hs).
  rewrite Hp. repeat split; reflexivity.
Qed.

Lemma feet_on_one_line_witness :
  Game.feet (Game.__init__ (Some (detection_of ((0, 1), (2, 4))%float ∅)))
    = Ok ((0, 4), (2, 4))%float.
Proof.
  apply (proj1 (feet_on_one_line
                  (detection_of ((0, 1), (2, 4))%float ∅) 0 1 2 4
                  (Game.__init__ (Some (detection_of ((0, 1), (2, 4))%float ∅)))
                  (Soccer.__init__ (Some (detection_of ((0, 1), (2, 4))%float ∅)))
                  eq_refl eq_refl eq_refl)).
Defined.

(** X2: [center_abs] is [center]: for every Player the two accessors give
    the same result, the midpoint of [detection.points] (or the same
    [AttributeError]); the absolute points of the Detection are not
    read. *)
Theorem center_abs_is_center (p : Game.Player) :
  Game.center_abs p = Game.center p /\
  (forall (points absolute_points absolute_points' : bbox)
          (data : gmap string pyval),
     Game.center_abs (Game.__init__ (Some (Detection.mk points absolute_points data)))
     = Game.center_abs (Game.__init__ (Some (Detection.mk points absolute_points' data)))).
Proof.
  split.
  - destruct (Game.detection p) as [d|] eqn:Hd.
    + now rewrite (game_center_abs_some p d Hd), (game_center_some p d Hd).
    + unfold Game.center_abs, Game.center. now rewrite Hd.
  - intros points a a' data.
    rewrite (game_center_abs_some
               (Game.__init__ (Some (Detection.mk points a data)))
               (Detection.mk points a data) eq_refl).
    rewrite (game_center_abs_some
               (Game.__init__ (Some (Detection.mk points a' data)))
               (Detection.mk points a' data) eq_refl).
    reflexivity.
Qed.

(** X3: for a Player with a Detection whose corner ordinates are ordered,
    [xy] is the middle of the top edge of the box: its x is the x of
    [center], and its y is one of [y1], [y2] and at most both. *)
Theorem xy_is_top_middle (p : Game.Player) (d : Detection.t)
    (x1 y1 x2 y2 : float)
    (Hd : Game.detection p = Some d)
    (Hp : Detection.points d = ((x1, y1), (x2, y2)))
    (Hy : comparable y1 y2 = true) :
  exists x y cy : float,
    Game.xy p = Ok (x, y) /\ Game.center p = Ok (x, cy) /\
    (y = y1 \/ y = y2) /\
    (y <=? y1)%float = true /\ (y <=? y2)%float = true.
Proof.
  exists ((x1 + x2) / 2)%float, (py_min y1 y2), ((y1 + y2) / 2)%float.
  rewrite (game_center_some p d Hd).
  unfold Game.xy, Game.get_xy, spec_center. rewrite Hd. simpl.
  rewrite Hp. simpl.
  split; [reflexivity|]. split; [reflexivity|].
  exact (py_min_lower_bound y1 y2 Hy).
Qed.

Lemma xy_is_top_middle_witness :
  exists x y cy : float,
    Game.xy (Game.__init__ (Some (detection_of ((0, 5), (2, 3))%float ∅)))
      = Ok (x, y) /\
    Game.center (Game.__init__ (Some (detection_of ((0, 5), (2, 3))%float ∅)))
      = Ok (x, cy) /\
    (y = 5%float \/ y = 3%float) /\
    (y <=? 5)%float = true /\ (y <=? 3)%float = true.
Proof.
  apply (xy_is_top_middle
           (Game.__init__ (Some (detection_of ((0, 5), (2, 3))%float ∅)))
           (detection_of ((0, 5), (2, 3))%float ∅) 0 5 2 3
           eq_refl eq_refl).
  vm_compute. reflexivity.
Defined.

(** ** More on the distances and the closest points *)

Lemma game_left_foot_abs_some (p : Game.Player) (d : Detection.t) :
  Game.detection p = Some d ->
  Game.left_foot_abs p = Ok (Game.get_left_foot (Detection.absolute_points d)).
Proof. intros Hd. unfold Game.left_foot_abs. now rewrite Hd. Qed.

Lemma game_right_foot_abs_some (p : Game.Player) (d : Detection.t) :
  Game.detection p = Some d ->
  Game.right_foot_abs p = Ok (Game.get_right_foot (Detection.absolute_points d)).
Proof. intros Hd. unfold Game.right_foot_abs. now rewrite Hd. Qed.

(** X4: [closest_foot_to_ball_abs] works on the absolute points as
    [closest_foot_to_ball] does on the points: for a Player with a Detection
    and a ball with an absolute center it returns the absolute left foot
    when that one is strictly closer to the ball's absolute center than
    the absolute right foot, and the absolute right foot otherwise, also
    when the distances are equal; without an absolute center of the ball
    it returns null. *)
Theorem closest_foot_to_ball_abs_strict
    (p : Game.Player) (ball : Ball.t) (d : Detection.t)
    (Hd : Game.detection p = Some d) :
  (Ball.center_abs ball = None ->
     Game.closest_foot_to_ball_abs p ball = Ok None) /\
  (forall ca : point, Ball.center_abs ball = Some ca ->
     let left := Game.get_left_foot (Detection.absolute_points d) in
     let right := Game.get_right_foot (Detection.absolute_points d) in
     Game.left_foot_abs p = Ok left /\ Game.right_foot_abs p = Ok right /\
     ((euclidean_distance ca left <? euclidean_distance ca right)%float = true ->
        Game.closest_foot_to_ball_abs p ball = Ok (Some left)) /\
     ((euclidean_distance ca left <? euclidean_distance ca right)%float = false ->
        Game.closest_foot_to_ball_abs p ball = Ok (Some right)) /\
     ((euclidean_distance ca left =? euclidean_distance ca right)%float = true ->
        Game.closest_foot_to_ball_abs p ball = Ok (Some right))).
Proof.
  unfold Game.closest_foot_to_ball_abs.
  rewrite (game_left_foot_abs_some p d Hd), (game_right_foot_abs_some p d Hd), Hd.
  split.
  - intros ->. reflexivity.
  - intros ca ->. cbn zeta. unfold euclidean_distance. simpl.
    do 2 (split; [reflexivity|]). split; [|split].
    + intros ->. reflexivity.
    + intros ->. reflexivity.
    + intros Heq. rewrite (float_eqb_not_ltb _ _ Heq). reflexivity.
Qed.

(** A box moved by (10,10) in absolute coordinates, the ball midway between
    its absolute feet: the right one, [(12,14)]. *)
Lemma closest_foot_to_ball_abs_strict_witness :
  Game.closest_foot_to_ball_abs
    (Game.__init__
       (Some (Detection.mk ((0, 0), (2, 4))%float ((10, 10), (12, 14))%float ∅)))
    (Ball.mk None None (Some (1, 4)%float) (Some (11, 14)%float))
  = Ok (Some (12, 14)%float).
Proof.
  apply (proj2 (proj2 (proj2 (proj2
          (proj2 (closest_foot_to_ball_abs_strict
                    (Game.__init__
                       (Some (Detection.mk ((0, 0), (2, 4))%float
                                ((10, 10), (12, 14))%float ∅)))
                    (Ball.mk None None (Some (1, 4)%float) (Some (11, 14)%float))
                    (Detection.mk ((0, 0), (2, 4))%float
                       ((10, 10), (12, 14))%float ∅)
                    eq_refl)
             (11, 14)%float eq_refl))))).
  vm_compute. reflexivity.
Defined.

(** X5: in [soccer/player.py] the two queries agree: when the distances
    from the ball to the two feet are ordered, what [distance_to_ball]
    returns compares equal to the distance from the ball's center to the
    foot [closest_foot_to_ball] returns, and exceeds neither foot
    distance. *)
Theorem soccer_distance_is_to_closest_foot
    (p : Soccer.Player) (ball : Ball.t) (d : Detection.t) (c : point)
    (Hd : Soccer.detection p = Some d) (Hc : Ball.center ball = Some c)
    (Hord : comparable
              (euclidean_distance c (Game.get_left_foot (Detection.points d)))
              (euclidean_distance c (Game.get_right_foot (Detection.points d)))
            = true) :
  exists (dist : float) (foot : point),
    Soccer.distance_to_ball p ball = Ok (Some dist) /\
    Soccer.closest_foot_to_ball p ball = Ok (Some foot) /\
    (dist =? euclidean_distance c foot)%float = true /\
    (dist <=? euclidean_distance c (Game.get_left_foot (Detection.points d)))%float
      = true /\
    (dist <=? euclidean_distance c (Game.get_right_foot (Detection.points d)))%float
      = true.
Proof.
  rewrite (soccer_closest_foot_some p ball d c Hd Hc).
  unfold Soccer.distance_to_ball.
  rewrite (soccer_left_foot_some p d Hd), (soccer_right_foot_some p d Hd), Hd, Hc.
  simpl. fold (euclidean_distance c (Game.get_left_foot (Detection.points d))).
  fold (euclidean_distance c (Game.get_right_foot (Detection.points d))).
  set (dl := euclidean_distance c (Game.get_left_foot (Detection.points d))) in *.
  set (dr := euclidean_distance c (Game.get_right_foot (Detection.points d))) in *.
  destruct (py_min_lower_bound dl dr Hord) as (_ & Hl & Hr).
  destruct (comparable_cases dl dr Hord) as (cmp & Hab & Hba & Haa & Hbb).
  exists (py_min dl dr). eexists.
  split; [reflexivity|]. split; [reflexivity|]. split; [|split; assumption].
  unfold py_min. rewrite !FloatAxioms.ltb_spec. unfold SFltb. rewrite Hab, Hba.
  destruct cmp; simpl; rewrite FloatAxioms.eqb_spec; unfold SFeqb;
    fold dl; fold dr; rewrite ?Hab, ?Haa, ?Hbb; reflexivity.
Qed.

Lemma soccer_distance_is_to_closest_foot_witness :
  exists (dist : float) (foot : point),
    Soccer.distance_to_ball
      (Soccer.__init__ (Some (detection_of ((0, 0), (6, 8))%float ∅)))
      (ball_at (3, 4)%float) = Ok (Some dist) /\
    Soccer.closest_foot_to_ball
      (Soccer.__init__ (Some (detection_of ((0, 0), (6, 8))%float ∅)))
      (ball_at (3, 4)%float) = Ok (Some foot) /\
    (dist =? euclidean_distance (3, 4)%float foot)%float = true /\
    (dist <=? euclidean_distance (3, 4)%float
                (Game.get_left_foot (Detection.points (detection_of ((0, 0), (6, 8))%float ∅))))%float
      = true /\
    (dist <=? euclidean_distance (3, 4)%float
                (Game.get_right_foot (Detection.points (detection_of ((0, 0), (6, 8))%float ∅))))%float
      = true.
Proof.
  apply (soccer_distance_is_to_closest_foot
           (Soccer.__init__ (Some (detection_of ((0, 0), (6, 8))%float ∅)))
           (ball_at (3, 4)%float)
           (detection_of ((0, 0), (6, 8))%float ∅) (3, 4)%float
           eq_refl eq_refl).
  vm_compute. reflexivity.
Defined.

(** X6: [distance_to_last_ball] never returns a distance.  It returns
    null exactly when the Player has no Detection or the ball has neither a
    center nor a last detection; in every other case it raises
    [AttributeError], because it reads [center] on [ball.detection] or on
    [ball.last_detection], which are null or a norfair [Detection].  In
    particular, for a Player with a Detection and a ball with a center,
    [distance_to_ball] returns a distance where [distance_to_last_ball]
    raises. *)
Theorem distance_to_last_ball_never_a_distance (p : Game.Player) (ball : Ball.t) :
  (forall x : float, Game.distance_to_last_ball p ball <> Ok (Some x)) /\
  (Game.distance_to_last_ball p ball = Ok None <->
     Game.detection p = None \/
     (Ball.center ball = None /\ Ball.last_detection ball = None)) /\
  (Game.distance_to_last_ball p ball = Raise AttributeError <->
     Game.detection p <> None /\
     (Ball.center ball <> None \/ Ball.last_detection ball <> None)) /\
  (forall c : point,
     Game.detection p <> None -> Ball.center ball = Some c ->
     returns (Game.distance_to_ball p ball) /\
     Game.distance_to_last_ball p ball = Raise AttributeError).
Proof.
  assert (Hcases :
    match Game.detection p, Ball.center ball, Ball.last_detection ball with
    | None, _, _ | Some _, None, None =>
        Game.distance_to_last_ball p ball = Ok None
    | _, _, _ => Game.distance_to_last_ball p ball = Raise AttributeError
    end).
  { unfold Game.distance_to_last_ball.
    destruct (Game.detection p) as [d|]; [|reflexivity].
    destruct (Ball.center ball) as [c|].
    - destruct (Ball.detection ball) as [det|];
        destruct (Ball.last_detection ball); reflexivity.
    - destruct (Ball.last_detection ball) as [last|]; reflexivity. }
  split; [|split; [|split]].
  - intros x.
    destruct (Game.detection p), (Ball.center ball), (Ball.last_detection ball);
      rewrite Hcases; discriminate.
  - destruct (Game.detection p), (Ball.center ball), (Ball.last_detection ball);
      rewrite Hcases; split; try discriminate; auto;
      intros [H|[H1 H2]]; discriminate.
  - destruct (Game.detection p), (Ball.center ball), (Ball.last_detection ball);
      rewrite Hcases; split; try discriminate; auto;
      try (intros [H1 [H2|H2]]; congruence);
      try (intros _; split; [discriminate|]; (left; discriminate) || (right; discriminate)).
  - intros c Hd Hc. destruct (Game.detection p) as [d|] eqn:Hd'; [|congruence].
    split.
    + eexists. apply (game_distance_to_ball_some p ball d c Hd' Hc).
    + rewrite Hc in Hcases. now destruct (Ball.last_detection ball).
Qed.

(** The ball detected at [(1,5)] in this frame. *)
Lemma distance_to_last_ball_never_a_distance_witness :
  returns (Game.distance_to_ball
             (Game.__init__ (Some (detection_of ((0, 0), (2, 4))%float ∅)))
             (ball_at (1, 5)%float)) /\
  Game.distance_to_last_ball
    (Game.__init__ (Some (detection_of ((0, 0), (2, 4))%float ∅)))
    (ball_at (1, 5)%float)
  = Raise AttributeError.
Proof.
  apply (proj2 (proj2 (proj2
          (distance_to_last_ball_never_a_distance
             (Game.__init__ (Some (detection_of ((0, 0), (2, 4))%float ∅)))
             (ball_at (1, 5)%float))))
           (1, 5)%float).
  - discriminate.
  - reflexivity.
Defined.

(** X7: what [closest_center_to_ball_abs] does for a Player with a
    Detection and a ball with an absolute center [ca]: it measures from
    [ca] to the center of the player's points and compares with the
    pixel-space distance; it returns the pixel-space center when the
    measure is at most that distance, null when it is strictly greater, and
    raises [TypeError] when the ball has no pixel-space center to compare
    with. *)
Theorem closest_center_to_ball_abs_behaviour
    (p : Game.Player) (ball : Ball.t) (d : Detection.t) (ca : point)
    (Hd : Game.detection p = Some d) (Hca : Ball.center_abs ball = Some ca) :
  (Ball.center ball = None ->
     Game.closest_center_to_ball_abs p ball = Raise TypeError) /\
  (forall c : point, Ball.center ball = Some c ->
     ((euclidean_distance ca (spec_center (Detection.points d))
       <=? euclidean_distance c (spec_center (Detection.points d)))%float = true ->
        Game.closest_center_to_ball_abs p ball
          = Ok (Some (spec_center (Detection.points d))) /\
        Game.center p = Ok (spec_center (Detection.points d))) /\
     ((euclidean_distance c (spec_center (Detection.points d))
       <? euclidean_distance ca (spec_center (Detection.points d)))%float = true ->
        Game.closest_center_to_ball_abs p ball = Ok None)).
Proof.
  split.
  - intros Hc. unfold Game.closest_center_to_ball_abs, Game.distance_to_ball.
    rewrite (game_center_abs_some p d Hd), Hd, Hca, Hc. reflexivity.
  - intros c Hc.
    destruct (game_closest_center_abs_filter p ball d c ca Hd Hc Hca) as [Hle Hgt].
    split; [|exact Hgt].
    intros H. split; [exact (Hle H) | exact (game_center_some p d Hd)].
Qed.

(** The ball one pixel off the player's center in the frame and two pixels
    off in absolute coordinates: null; and a ball without pixel center. *)
Lemma closest_center_to_ball_abs_behaviour_witness :
  Game.closest_center_to_ball_abs
    (Game.__init__ (Some (detection_of ((0, 0), (2, 4))%float ∅)))
    (Ball.mk None None (Some (1, 3)%float) (Some (1, 4)%float))
  = Ok None /\
  Game.closest_center_to_ball_abs
    (Game.__init__ (Some (detection_of ((0, 0), (2, 4))%float ∅)))
    (Ball.mk None None None (Some (1, 4)%float))
  = Raise TypeError.
Proof.
  split.
  - apply (proj2 (proj2 (closest_center_to_ball_abs_behaviour
                           (Game.__init__ (Some (detection_of ((0, 0), (2, 4))%float ∅)))
                           (Ball.mk None None (Some (1, 3)%float) (Some (1, 4)%float))
                           (detection_of ((0, 0), (2, 4))%float ∅) (1, 4)%float
                           eq_refl eq_refl)
                    (1, 3)%float eq_refl)).
    vm_compute. reflexivity.
  - apply (proj1 (closest_center_to_ball_abs_behaviour
                    (Game.__init__ (Some (detection_of ((0, 0), (2, 4))%float ∅)))
                    (Ball.mk None None None (Some (1, 4)%float))
                    (detection_of ((0, 0), (2, 4))%float ∅) (1, 4)%float
                    eq_refl eq_refl)).
    reflexivity.
Defined.

(** ** More on equality and identifiers *)

Lemma game_eq_players (p q : Game.Player) :
  Game.__eq__ (Game.OPlayer p) (Game.OPlayer q) =
  match Game.detection p with
  | None => Raise AttributeError
  | Some dp =>
      match Detection.data dp !! "id" with
      | None => Raise KeyError
      | Some ip =>
          match Game.detection q with
          | None => Raise AttributeError
          | Some dq =>
              match Detection.data dq !! "id" with
              | None => Raise KeyError
              | Some iq => Ok (py_eqb ip iq)
              end
          end
      end
  end.
Proof.
  unfold Game.__eq__, getitem. simpl.
  destruct (Game.detection p) as [dp|]; simpl; [|reflexivity].
  destruct (Detection.data dp !! "id") as [ip|]; simpl; [|reflexivity].
  destruct (Game.detection q) as [dq|]; simpl; [|reflexivity].
  destruct (Detection.data dq !! "id") as [iq|]; reflexivity.
Qed.

Lemma py_eqb_sym (a b : pyval) : py_eqb a b = py_eqb b a.
Proof.
  unfold py_eqb. destruct (decide (a = b)) as [->|Hne].
  - reflexivity.
  - rewrite !bool_decide_eq_false_2; [reflexivity| |assumption].
    intros ->. now apply Hne.
Qed.

Lemma py_eqb_true (a b : pyval) : py_eqb a b = true <-> a = b.
Proof. unfold py_eqb. apply bool_decide_eq_true. Qed.

(** X8: between two Players [__eq__] returns exactly when both have a
    Detection whose attribute map holds an "id"; a Detection without "id"
    makes it raise [KeyError], on the left Player and, once the left
    identifier is read, on the right one. *)
Theorem eq_returns_iff_both_have_ids (p q : Game.Player) :
  (returns (Game.__eq__ (Game.OPlayer p) (Game.OPlayer q)) <->
     (exists dp ip, Game.detection p = Some dp /\ Detection.data dp !! "id" = Some ip) /\
     (exists dq iq, Game.detection q = Some dq /\ Detection.data dq !! "id" = Some iq)) /\
  (forall dp : Detection.t,
     Game.detection p = Some dp -> Detection.data dp !! "id" = None ->
     Game.__eq__ (Game.OPlayer p) (Game.OPlayer q) = Raise KeyError) /\
  (forall (dp dq : Detection.t) (ip : pyval),
     Game.detection p = Some dp -> Detection.data dp !! "id" = Some ip ->
     Game.detection q = Some dq -> Detection.data dq !! "id" = None ->
     Game.__eq__ (Game.OPlayer p) (Game.OPlayer q) = Raise KeyError).
Proof.
  rewrite (game_eq_players p q). split; [|split].
  - split.
    + intros [x Hx].
      destruct (Game.detection p) as [dp|]; [|discriminate].
      destruct (Detection.data dp !! "id") as [ip|] eqn:Hip; [|discriminate].
      destruct (Game.detection q) as [dq|]; [|discriminate].
      destruct (Detection.data dq !! "id") as [iq|] eqn:Hiq; [|discriminate].
      split; [exists dp, ip | exists dq, iq]; split; auto.
    + intros [(dp & ip & -> & ->) (dq & iq & -> & ->)]. eexists. reflexivity.
  - intros dp -> ->. reflexivity.
  - intros dp dq ip -> -> -> ->. reflexivity.
Qed.

(** X9: where it returns, [__eq__] behaves as an equivalence: if [a == b]
    returns a value then [b == a] returns the same value; if [a == b] and
    [b == c] are true then so is [a == c]; and a Player whose comparison
    with itself returns is equal to itself. *)
Theorem eq_symmetric_transitive :
  (forall (a b : Game.pyobj) (x : bool),
     Game.__eq__ a b = Ok x -> Game.__eq__ b a = Ok x) /\
  (forall a b c : Game.pyobj,
     Game.__eq__ a b = Ok true -> Game.__eq__ b c = Ok true ->
     Game.__eq__ a c = Ok true) /\
  (forall (p : Game.Player) (x : bool),
     Game.__eq__ (Game.OPlayer p) (Game.OPlayer p) = Ok x -> x = true).
Proof.
  split; [|split].
  - intros [p|v] [q|w] x; try (intros H; exact H).
    rewrite !game_eq_players.
    destruct (Game.detection p) as [dp|]; [|discriminate].
    destruct (Detection.data dp !! "id") as [ip|]; [|discriminate].
    destruct (Game.detection q) as [dq|]; [|discriminate].
    destruct (Detection.data dq !! "id") as [iq|]; [|discriminate].
    now rewrite (py_eqb_sym iq ip).
  - intros [p|v] [q|w] [r|u]; try discriminate.
    rewrite !game_eq_players.
    destruct (Game.detection p) as [dp|]; [|discriminate].
    destruct (Detection.data dp !! "id") as [ip|]; [|discriminate].
    destruct (Game.detection q) as [dq|]; [|discriminate].
    destruct (Detection.data dq !! "id") as [iq|]; [|discriminate].
    destruct (Game.detection r) as [dr|]; [|discriminate].
    destruct (Detection.data dr !! "id") as [ir|]; [|discriminate].
    intros H1 H2. injection H1 as H1. injection H2 as H2.
    apply py_eqb_true in H1, H2. subst. f_equal. now apply py_eqb_true.
  - intros p x. rewrite game_eq_players.
    destruct (Game.detection p) as [dp|]; [|discriminate].
    destruct (Detection.data dp !! "id") as [ip|]; [|discriminate].
    intros H. injection H as <-. now apply py_eqb_true.
Qed.

Lemma eq_symmetric_transitive_witness :
  Game.__eq__
    (Game.OPlayer (Game.__init__ (Some (detection_of ((9, 9), (11, 13))%float {["id" := VInt 7]}))))
    (Game.OPlayer (Game.__init__ (Some (detection_of ((0, 0), (2, 4))%float {["id" := VInt 7]}))))
  = Ok true.
Proof.
  apply (proj1 eq_symmetric_transitive
           (Game.OPlayer (Game.__init__ (Some (detection_of ((0, 0), (2, 4))%float {["id" := VInt 7]}))))
           (Game.OPlayer (Game.__init__ (Some (detection_of ((9, 9), (11, 13))%float {["id" := VInt 7]}))))
           true).
  reflexivity.
Defined.

Lemma game_have_same_id_players (p1 p2 : Game.Player) :
  Game.have_same_id (Some p1) (Some p2) =
  match Game.detection p1 with
  | None => Raise AttributeError
  | Some d1 =>
      match Detection.data d1 !! "id" with
      | None => Ok false
      | Some i1 =>
          match Game.detection p2 with
          | None => Raise AttributeError
          | Some d2 =>
              match Detection.data d2 !! "id" with
              | None => Ok false
              | Some i2 => Ok (py_eqb i1 i2)
              end
          end
      end
  end.
Proof.
  unfold Game.have_same_id, contains. rewrite game_eq_players.
  destruct (Game.detection p1) as [d1|]; simpl; [|reflexivity].
  destruct (Detection.data d1 !! "id") as [i1|]; simpl; [|reflexivity].
  destruct (Game.detection p2) as [d2|]; simpl; [|reflexivity].
  destruct (Detection.data d2 !! "id") as [i2|]; reflexivity.
Qed.

(** X10: [have_same_id] is [==] made safe against missing identifiers: it
    never raises [KeyError] (nor [TypeError]); whenever [player1 == player2]
    returns, [have_same_id] returns the same value; and when [have_same_id]
    is true, so is [player1 == player2]. *)
Theorem have_same_id_agrees_with_eq :
  (forall player1 player2 : option Game.Player,
     Game.have_same_id player1 player2 <> Raise KeyError /\
     Game.have_same_id player1 player2 <> Raise TypeError) /\
  (forall (p1 p2 : Game.Player) (x : bool),
     Game.__eq__ (Game.OPlayer p1) (Game.OPlayer p2) = Ok x ->
     Game.have_same_id (Some p1) (Some p2) = Ok x) /\
  (forall p1 p2 : Game.Player,
     Game.have_same_id (Some p1) (Some p2) = Ok true ->
     Game.__eq__ (Game.OPlayer p1) (Game.OPlayer p2) = Ok true).
Proof.
  split; [|split].
  - intros [p1|] [p2|]; try (split; discriminate).
    rewrite game_have_same_id_players.
    destruct (Game.detection p1) as [d1|]; [|split; discriminate].
    destruct (Detection.data d1 !! "id") as [i1|]; [|split; discriminate].
    destruct (Game.detection p2) as [d2|]; [|split; discriminate].
    destruct (Detection.data d2 !! "id") as [i2|]; split; discriminate.
  - intros p1 p2 x. rewrite game_have_same_id_players, game_eq_players.
    destruct (Game.detection p1) as [d1|]; [|discriminate].
    destruct (Detection.data d1 !! "id") as [i1|]; [|discriminate].
    destruct (Game.detection p2) as [d2|]; [|discriminate].
    destruct (Detection.data d2 !! "id") as [i2|]; [|discriminate].
    intros H. exact H.
  - intros p1 p2. rewrite game_have_same_id_players, game_eq_players.
    destruct (Game.detection p1) as [d1|]; [|discriminate].
    destruct (Detection.data d1 !! "id") as [i1|]; [|discriminate].
    destruct (Game.detection p2) as [d2|]; [|discriminate].
    destruct (Detection.data d2 !! "id") as [i2|]; [|discriminate].
    intros H. exact H.
Qed.

Lemma have_same_id_agrees_with_eq_witness :
  Game.have_same_id
    (Some (Game.__init__ (Some (detection_of ((0, 0), (2, 4))%float {["id" := VInt 7]}))))
    (Some (Game.__init__ (Some (detection_of ((9, 9), (11, 13))%float {["id" := VInt 8]}))))
  = Ok false.
Proof.
  apply (proj1 (proj2 have_same_id_agrees_with_eq)
           (Game.__init__ (Some (detection_of ((0, 0), (2, 4))%float {["id" := VInt 7]})))
           (Game.__init__ (Some (detection_of ((9, 9), (11, 13))%float {["id" := VInt 8]})))
           false).
  reflexivity.
Defined.

(** X11: a true [have_same_id] does not depend on the order of its
    arguments, and chains: from [have_same_id(a, b)] and
    [have_same_id(b, c)] true follows [have_same_id(a, c)] true. *)
Theorem have_same_id_true_symmetric_transitive :
  (forall a b : option Game.Player,
     Game.have_same_id a b = Ok true -> Game.have_same_id b a = Ok true) /\
  (forall a b c : option Game.Player,
     Game.have_same_id a b = Ok true -> Game.have_same_id b c = Ok true ->
     Game.have_same_id a c = Ok true).
Proof.
  split.
  - intros [p|] [q|]; try discriminate.
    rewrite !game_have_same_id_players.
    destruct (Game.detection p) as [dp|]; [|discriminate].
    destruct (Detection.data dp !! "id") as [ip|]; [|discriminate].
    destruct (Game.detection q) as [dq|]; [|discriminate].
    destruct (Detection.data dq !! "id") as [iq|]; [|discriminate].
    now rewrite (py_eqb_sym iq ip).
  - intros [p|] [q|] [r|]; try discriminate.
    rewrite !game_have_same_id_players.
    destruct (Game.detection p) as [dp|]; [|discriminate].
    destruct (Detection.data dp !! "id") as [ip|]; [|discriminate].
    destruct (Game.detection q) as [dq|]; [|discriminate].
    destruct (Detection.data dq !! "id") as [iq|]; [|discriminate].
    destruct (Game.detection r) as [dr|]; [|discriminate].
    destruct (Detection.data dr !! "id") as [ir|]; [|discriminate].
    intros H1 H2. injection H1 as H1. injection H2 as H2.
    apply py_eqb_true in H1, H2. subst. f_equal. now apply py_eqb_true.
Qed.

Lemma have_same_id_true_symmetric_transitive_witness :
  Game.have_same_id
    (Some (Game.__init__ (Some (detection_of ((9, 9), (11, 13))%float {["id" := VInt 7]}))))
    (Some (Game.__init__ (Some (detection_of ((0, 0), (2, 4))%float {["id" := VInt 7]}))))
  = Ok true.
Proof.
  apply (proj1 have_same_id_true_symmetric_transitive
           (Some (Game.__init__ (Some (detection_of ((0, 0), (2, 4))%float {["id" := VInt 7]}))))
           (Some (Game.__init__ (Some (detection_of ((9, 9), (11, 13))%float {["id" := VInt 7]}))))).
  reflexivity.
Defined.

(** A Detection without "id" on the left. *)
Lemma eq_returns_iff_both_have_ids_witness :
  Game.__eq__
    (Game.OPlayer (Game.__init__ (Some (detection_of ((0, 0), (2, 4))%float ∅))))
    (Game.OPlayer (Game.__init__ (Some (detection_of ((0, 0), (2, 4))%float {["id" := VInt 7]}))))
  = Raise KeyError.
Proof.
  apply (proj1 (proj2 (eq_returns_iff_both_have_ids
                         (Game.__init__ (Some (detection_of ((0, 0), (2, 4))%float ∅)))
                         (Game.__init__ (Some (detection_of ((0, 0), (2, 4))%float {["id" := VInt 7]})))))
           (detection_of ((0, 0), (2, 4))%float ∅)); reflexivity.
Defined.

(** ** More on the players of a frame *)

Lemma game_from_detections_spec (detections : list (option Detection.t))
    (teams : list Team) :
  Game.from_detections detections teams =
  ((fun d => Game.__init__ (Some (Game.classify teams d))) <$> survivors detections).
Proof. exact (game_from_detections_loop_spec teams detections []). Qed.

Lemma soccer_from_detections_spec (detections : list (option Detection.t))
    (teams : list Team) :
  Soccer.from_detections detections teams =
  ((fun d => Soccer.__init__ (Some (Soccer.classify teams d))) <$> survivors detections).
Proof. exact (soccer_from_detections_loop_spec teams detections []). Qed.

Lemma survivors_app (l1 l2 : list (option Detection.t)) :
  survivors (l1 ++ l2) = survivors l1 ++ survivors l2.
Proof. unfold survivors. apply omap_app. Qed.

Lemma game_classify_idempotent (teams : list Team) (d : Detection.t) :
  Game.classify teams (Game.classify teams d) = Game.classify teams d.
Proof.
  unfold Game.classify.
  destruct (Detection.data d !! "classification") as [name|] eqn:Hc.
  - unfold Detection.set_data at 2. simpl.
    rewrite lookup_insert_ne by discriminate. rewrite Hc.
    unfold Detection.set_data. simpl. now rewrite insert_insert_eq.
  - now rewrite Hc.
Qed.

(** X12: [from_detections] works detection by detection: the players of
    two batches put one after the other are the players of the first
    followed by the players of the second, in both modules. *)
Theorem from_detections_app (l1 l2 : list (option Detection.t))
    (teams : list Team) :
  Game.from_detections (l1 ++ l2) teams
    = Game.from_detections l1 teams ++ Game.from_detections l2 teams /\
  Soccer.from_detections (l1 ++ l2) teams
    = Soccer.from_detections l1 teams ++ Soccer.from_detections l2 teams.
Proof.
  rewrite !game_from_detections_spec, !soccer_from_detections_spec.
  rewrite survivors_app, !fmap_app. split; reflexivity.
Qed.

(** X13: every Player that [from_detections] builds has a Detection, its
    team is what the attribute map of that Detection stores under "team"
    (null when there is no such key), and its geometric accessors return
    instead of raising; with a ball that has a center, [distance_to_ball]
    gives it a distance. *)
Theorem from_detections_players_have_geometry
    (detections : list (option Detection.t)) (teams : list Team)
    (p : Game.Player)
    (Hin : p ∈ Game.from_detections detections teams) :
  (exists d : Detection.t,
     Game.detection p = Some d /\
     Game.team p = default VNone (Detection.data d !! "team")) /\
  returns (Game.left_foot p) /\ returns (Game.right_foot p) /\
  returns (Game.feet p) /\ returns (Game.center p) /\
  returns (Game.left_foot_abs p) /\ returns (Game.right_foot_abs p) /\
  returns (Game.center_abs p) /\ returns (Game.xy p) /\
  (forall (ball : Ball.t) (c : point), Ball.center ball = Some c ->
     exists dist : float, Game.distance_to_ball p ball = Ok (Some dist)).
Proof.
  rewrite game_from_detections_spec in Hin.
  apply list_elem_of_fmap in Hin as (d & -> & _).
  set (d' := Game.classify teams d).
  split.
  { exists d'. split; [reflexivity|]. unfold Game.__init__. simpl.
    now destruct (Detection.data d' !! "team"). }
  assert (Hd : Game.detection (Game.__init__ (Some d')) = Some d') by reflexivity.
  rewrite (game_center_abs_some _ d' Hd), (game_center_some _ d' Hd).
  unfold Game.xy, Game.get_xy, Game.feet.
  rewrite (game_left_foot_some _ d' Hd), (game_right_foot_some _ d' Hd).
  rewrite (game_left_foot_abs_some _ d' Hd), (game_right_foot_abs_some _ d' Hd).
  repeat (split; [eexists; reflexivity|]).
  split.
  - simpl. destruct (Detection.points d') as [[x1 y1] [x2 y2]]. simpl.
    eexists. reflexivity.
  - intros ball c Hc. eexists.
    apply (game_distance_to_ball_some _ ball d' c Hd Hc).
Qed.

Lemma from_detections_players_have_geometry_witness :
  returns (Game.feet (Game.__init__ (Some (detection_of ((0, 0), (2, 4))%float ∅)))).
Proof.
  apply (from_detections_players_have_geometry
           [None; Some (detection_of ((0, 0), (2, 4))%float ∅)] []
           (Game.__init__ (Some (detection_of ((0, 0), (2, 4))%float ∅)))).
  vm_compute. apply list_elem_of_here.
Defined.

(** X14: feeding [from_detections] the detections of the players it built
    gives the same players again: a detection already annotated with its
    team is annotated with the same team. *)
Theorem from_detections_again (detections : list (option Detection.t))
    (teams : list Team) :
  Game.from_detections
    (Game.detection <$> Game.from_detections detections teams) teams
  = Game.from_detections detections teams.
Proof.
  rewrite !game_from_detections_spec.
  rewrite <- list_fmap_compose.
  assert (Hs : forall l : list Detection.t,
            survivors ((Game.detection ∘
                          (fun d => Game.__init__ (Some (Game.classify teams d)))) <$> l)
            = Game.classify teams <$> l).
  { induction l as [|d l IH]; [reflexivity|].
    unfold survivors in *. cbn. f_equal. exact IH. }
  rewrite Hs, <- list_fmap_compose.
  apply list_fmap_ext. intros i d _. simpl.
  now rewrite game_classify_idempotent.
Qed.

Lemma soccer_classify_is_game_classify (teams : list Team) (d : Detection.t) :
  Soccer.classify teams d = Game.classify teams d.
Proof. reflexivity. Qed.

(** X15: the two modules build the same players: for every batch and
    roster the Detections wrapped and the teams assigned by
    [from_detections] of [game/player.py] are those of [from_detections]
    of [soccer/player.py], player by player. *)
Theorem from_detections_modules_agree
    (detections : list (option Detection.t)) (teams : list Team) :
  Game.detection <$> Game.from_detections detections teams
    = Soccer.detection <$> Soccer.from_detections detections teams /\
  Game.team <$> Game.from_detections detections teams
    = Soccer.team <$> Soccer.from_detections detections teams.
Proof.
  rewrite game_from_detections_spec, soccer_from_detections_spec.
  rewrite <- !list_fmap_compose.
  split; apply list_fmap_ext; intros i d _; reflexivity.
Qed.

(** X16: [from_detections] returns no player exactly when the batch holds
    no detection other than null ones. *)
Theorem from_detections_empty_iff (detections : list (option Detection.t))
    (teams : list Team) :
  Game.from_detections detections teams = [] <->
  Forall (fun d => d = None) detections.
Proof.
  rewrite game_from_detections_spec. split.
  - intros H. apply fmap_nil_inv in H.
    induction detections as [|[d|] rest IH].
    + constructor.
    + unfold survivors in H. discriminate H.
    + constructor; [reflexivity|]. apply IH. exact H.
  - intros H. induction H as [|d rest -> _ IH]; [reflexivity|]. exact IH.
Qed.

(** ** Applying a mask *)

Lemma same_shape_of_frame (frame : RunUtils.Frame)
    (img : RunUtils.Image) (mask : RunUtils.Mask) :
  RunUtils.image_of frame img -> RunUtils.mask_of frame mask ->
  RunUtils.same_shape img mask = true.
Proof.
  intros [Hh Hw] [Hh' Hw']. rewrite <- Hh' in Hh. clear Hh'.
  revert mask Hh Hw'. induction img as [|row img IH]; intros [|mrow mask] Hh Hw';
    try discriminate; [reflexivity|].
  simpl. apply Forall_cons in Hw as [Hr Hw]. apply Forall_cons in Hw' as [Hr' Hw'].
  rewrite Hr, Hr', Nat.eqb_refl. simpl.
  apply IH; [exact Hw | now injection Hh | exact Hw'].
Qed.

Lemma same_shape_lengths (img : RunUtils.Image) (mask : RunUtils.Mask) :
  RunUtils.same_shape img mask = true ->
  length img = length mask /\
  (forall i row mrow, img !! i = Some row -> mask !! i = Some mrow ->
     length row = length mrow).
Proof.
  revert mask. induction img as [|row img IH]; intros [|mrow mask] H;
    try discriminate; [split; [reflexivity|]; intros i ? ? Hi; discriminate Hi|].
  simpl in H. apply andb_true_iff in H as [Hr H]. apply Nat.eqb_eq in Hr.
  destruct (IH mask H) as [Hlen Hrows]. split; [simpl; now f_equal|].
  intros [|i] r m Hi Hm; simpl in Hi, Hm.
  - injection Hi as <-. injection Hm as <-. exact Hr.
  - exact (Hrows i r m Hi Hm).
Qed.

Lemma zero_pixel_idempotent (px : list Z) :
  RunUtils.zero_pixel (RunUtils.zero_pixel px) = RunUtils.zero_pixel px.
Proof. unfold RunUtils.zero_pixel. now rewrite <- list_fmap_compose. Qed.

(** X17: for an image and a mask of the shape of one frame, [apply_mask]
    returns an image of that shape in which the pixel at [i, j] has every
    channel 0 where the mask holds 0 and is the pixel of the input
    elsewhere, with as many channels as before. *)
Theorem apply_mask_cells (frame : RunUtils.Frame)
    (img : RunUtils.Image) (mask : RunUtils.Mask)
    (Himg : RunUtils.image_of frame img) (Hmask : RunUtils.mask_of frame mask) :
  exists out : RunUtils.Image,
    RunUtils.apply_mask img mask = RunUtils.Masked out /\
    RunUtils.image_of frame out /\
    (forall (i j : nat) (px : list Z) (m : Z),
       RunUtils.image_pixel img i j = Some px ->
       RunUtils.pixel mask i j = Some m ->
       RunUtils.image_pixel out i j
         = Some (if m =? 0 then RunUtils.zero_pixel px else px) /\
       (forall px', RunUtils.image_pixel out i j = Some px' ->
          length px' = length px)).
Proof.
  unfold RunUtils.apply_mask.
  rewrite (same_shape_of_frame frame img mask Himg Hmask).
  eexists. split; [reflexivity|].
  destruct Himg as [Hh Hw], Hmask as [Hh' Hw'].
  split; [split|].
  - rewrite length_zip_with. lia.
  - apply Forall_forall. intros row Hrow.
    apply list_elem_of_lookup in Hrow as [i Hi].
    apply lookup_zip_with_Some in Hi as (r & m & -> & Hr & Hm).
    rewrite length_zip_with.
    rewrite Forall_forall in Hw. rewrite Forall_forall in Hw'.
    rewrite (Hw r), (Hw' m); [lia| |];
      apply list_elem_of_lookup; eauto.
  - intros i j px m Hpx Hm. unfold RunUtils.image_pixel, RunUtils.pixel in *.
    rewrite lookup_zip_with.
    destruct (img !! i) as [row|]; simpl in *; [|discriminate].
    destruct (mask !! i) as [mrow|]; simpl in *; [|discriminate].
    rewrite lookup_zip_with, Hpx, Hm. simpl. split; [reflexivity|].
    intros px' Hpx'. injection Hpx' as <-.
    destruct (m =? 0); [|reflexivity].
    unfold RunUtils.zero_pixel. apply length_fmap.
Qed.

(** A 1 x 2 image of three channels under the mask [[0, 1]]. *)
Lemma apply_mask_cells_witness :
  exists out : RunUtils.Image,
    RunUtils.apply_mask [[[7; 8; 9]; [4; 5; 6]]] [[0; 1]] = RunUtils.Masked out /\
    RunUtils.image_pixel out 0 0 = Some [0; 0; 0] /\
    RunUtils.image_pixel out 0 1 = Some [4; 5; 6].
Proof.
  destruct (apply_mask_cells (RunUtils.mkFrame 1 2)
              [[[7; 8; 9]; [4; 5; 6]]] [[0; 1]]) as (out & Hout & _ & Hcells).
  - split; [reflexivity|]. repeat constructor.
  - split; [reflexivity|]. repeat constructor.
  - exists out. split; [exact Hout|]. split.
    + exact (proj1 (Hcells 0%nat 0%nat [7; 8; 9] 0 eq_refl eq_refl)).
    + exact (proj1 (Hcells 0%nat 1%nat [4; 5; 6] 1 eq_refl eq_refl)).
Defined.

Lemma mask_row_again (row : list (list Z)) (mrow : list Z) :
  zip_with (fun px m => if m =? 0 then RunUtils.zero_pixel px else px)
    (zip_with (fun px m => if m =? 0 then RunUtils.zero_pixel px else px) row mrow)
    mrow
  = zip_with (fun px m => if m =? 0 then RunUtils.zero_pixel px else px) row mrow.
Proof.
  revert mrow. induction row as [|px row IH]; intros [|m mrow]; try reflexivity.
  simpl. rewrite IH. f_equal.
  destruct (m =? 0); [apply zero_pixel_idempotent | reflexivity].
Qed.

Lemma same_shape_masked (img : RunUtils.Image) (mask : RunUtils.Mask) :
  RunUtils.same_shape img mask = true ->
  RunUtils.same_shape
    (zip_with (zip_with (fun px m => if m =? 0 then RunUtils.zero_pixel px else px))
       img mask) mask = true.
Proof.
  revert mask. induction img as [|row img IH]; intros [|mrow mask] H;
    try discriminate; [reflexivity|].
  simpl in *. apply andb_true_iff in H as [Hr H]. apply Nat.eqb_eq in Hr.
  rewrite (IH mask H), length_zip_with, Hr, Nat.min_id, Nat.eqb_refl.
  reflexivity.
Qed.

(** X18: masking twice with the same mask is masking once: when
    [apply_mask(img, mask)] returns [out], [apply_mask(out, mask)] returns
    [out] again. *)
Theorem apply_mask_idempotent (img out : RunUtils.Image) (mask : RunUtils.Mask)
    (Hout : RunUtils.apply_mask img mask = RunUtils.Masked out) :
  RunUtils.apply_mask out mask = RunUtils.Masked out.
Proof.
  unfold RunUtils.apply_mask in *.
  destruct (RunUtils.same_shape img mask) eqn:Hs; [|discriminate].
  injection Hout as <-. rewrite (same_shape_masked img mask Hs). f_equal.
  clear Hs. revert mask. induction img as [|row img IH]; intros [|mrow mask];
    try reflexivity.
  simpl. now rewrite IH, mask_row_again.
Qed.

Lemma apply_mask_idempotent_witness :
  RunUtils.apply_mask [[[0; 0; 0]; [4; 5; 6]]] [[0; 1]]
    = RunUtils.Masked [[[0; 0; 0]; [4; 5; 6]]].
Proof.
  apply (apply_mask_idempotent [[[7; 8; 9]; [4; 5; 6]]]
           [[[0; 0; 0]; [4; 5; 6]]] [[0; 1]]).
  reflexivity.
Defined.

Lemma mask_row_ones (row : list (list Z)) (n : nat) :
  length row = n ->
  zip_with (fun px m => if m =? 0 then RunUtils.zero_pixel px else px)
    row (replicate n 1) = row.
Proof.
  intros Hn. rewrite (zip_with_replicate_r_eq _ n 1 row Hn).
  simpl. apply list_fmap_id.
Qed.

Lemma ones_mask_of (frame : RunUtils.Frame) :
  RunUtils.mask_of frame (RunUtils.ones frame).
Proof.
  unfold RunUtils.mask_of, RunUtils.ones. split.
  - apply length_replicate.
  - apply Forall_replicate. apply length_replicate.
Qed.

(** X19: with no detection nothing is hidden: for an image of the shape of
    the frame, [apply_mask(img, create_mask(frame, []))] returns the image
    unchanged. *)
Theorem apply_mask_of_empty_create_mask
    (generate_predictions_mask : list Detection.t -> RunUtils.Frame -> Z -> RunUtils.Mask)
    (frame : RunUtils.Frame) (img : RunUtils.Image)
    (Himg : RunUtils.image_of frame img) :
  RunUtils.apply_mask img (RunUtils.create_mask generate_predictions_mask frame [])
  = RunUtils.Masked img.
Proof.
  unfold RunUtils.create_mask. rewrite !assign_slice_no_rows by lia.
  unfold RunUtils.apply_mask.
  rewrite (same_shape_of_frame frame img _ Himg (ones_mask_of frame)).
  f_equal. destruct Himg as [Hh Hw]. unfold RunUtils.ones.
  rewrite (zip_with_replicate_r_eq _ _ _ img Hh). simpl.
  rewrite <- (list_fmap_id img) at 2.
  apply Forall_fmap_ext_1.
  eapply Forall_impl; [exact Hw|]. intros row Hrow. simpl.
  now apply mask_row_ones.
Qed.

Lemma apply_mask_of_empty_create_mask_witness :
  RunUtils.apply_mask [[[7; 8; 9]; [4; 5; 6]]]
    (RunUtils.create_mask (fun _ _ _ => []) (RunUtils.mkFrame 1 2) [])
  = RunUtils.Masked [[[7; 8; 9]; [4; 5; 6]]].
Proof.
  apply (apply_mask_of_empty_create_mask (fun _ _ _ => [])
           (RunUtils.mkFrame 1 2) [[[7; 8; 9]; [4; 5; 6]]]).
  split; [reflexivity|]. repeat constructor.
Defined.

(** X20: [apply_mask] raises [IndexError] when the mask does not have the
    shape of the image: a different number of rows, or, for an image with
    rows, a different number of columns. *)
Theorem apply_mask_shape_mismatch (frame frame' : RunUtils.Frame)
    (img : RunUtils.Image) (mask : RunUtils.Mask)
    (Himg : RunUtils.image_of frame img) (Hmask : RunUtils.mask_of frame' mask)
    (Hne : RunUtils.height frame <> RunUtils.height frame' \/
           ((0 < RunUtils.height frame)%nat /\
            RunUtils.width frame <> RunUtils.width frame')) :
  RunUtils.apply_mask img mask = RunUtils.IndexError.
Proof.
  unfold RunUtils.apply_mask.
  destruct (RunUtils.same_shape img mask) eqn:Hs; [|reflexivity].
  exfalso. apply same_shape_lengths in Hs as [Hlen Hrows].
  destruct Himg as [Hh Hw], Hmask as [Hh' Hw'].
  destruct Hne as [Hne|[Hpos Hne]]; [lia|].
  destruct img as [|row img]; [simpl in Hh; lia|].
  destruct mask as [|mrow mask]; [discriminate Hlen|].
  apply Forall_cons in Hw as [Hr _]. apply Forall_cons in Hw' as [Hr' _].
  specialize (Hrows 0%nat row mrow eq_refl eq_refl). lia.
Qed.

Lemma apply_mask_shape_mismatch_witness :
  RunUtils.apply_mask [[[7; 8; 9]; [4; 5; 6]]] [[0; 1; 1]] = RunUtils.IndexError.
Proof.
  apply (apply_mask_shape_mismatch (RunUtils.mkFrame 1 2) (RunUtils.mkFrame 1 3)
           [[[7; 8; 9]; [4; 5; 6]]] [[0; 1; 1]]).
  - split; [reflexivity|]. repeat constructor.
  - split; [reflexivity|]. repeat constructor.
  - right. simpl. split; [lia|discriminate].
Defined.

(** X21: [update_motion_estimator] updates the estimator with the frame and
    with the mask as it was built, no cell of it set to 0 afterwards: the
    predictions mask of margin 40 when there are detections, a mask of
    ones when there are none. *)
Theorem update_motion_estimator_mask
    (generate_predictions_mask : list Detection.t -> RunUtils.Frame -> Z -> RunUtils.Mask)
    (MotionEstimator CoordinatesTransformation : Type)
    (update : MotionEstimator -> RunUtils.Frame -> RunUtils.Mask ->
              CoordinatesTransformation * MotionEstimator)
    (motion_estimator : MotionEstimator) (frame : RunUtils.Frame) :
  RunUtils.update_motion_estimator generate_predictions_mask
    MotionEstimator CoordinatesTransformation update motion_estimator [] frame
  = update motion_estimator frame (RunUtils.ones frame) /\
  (forall (detection : Detection.t) (detections : list Detection.t),
     RunUtils.update_motion_estimator generate_predictions_mask
       MotionEstimator CoordinatesTransformation update motion_estimator
       (detection :: detections) frame
     = update motion_estimator frame
         (generate_predictions_mask (detection :: detections) frame 40)).
Proof.
  unfold RunUtils.update_motion_estimator, RunUtils.create_mask.
  split; [|intros detection detections];
    rewrite !assign_slice_no_rows by lia; reflexivity.
Qed.
